(** * LuxeFit AI: shallow embedding of the generation / feedback core

    The embedded code lives in [App.tsx] (history updates, batch
    generation, verification and regeneration handlers), in
    [services/geminiService.ts] ([retryOperation], [verifyFeedbackIntent])
    and in [components/ResultGallery.tsx] (the region selector).
    React state updates [setHistory (prev => f prev)] are modelled as
    explicit state passing of the history list; awaited external calls
    are modelled by oracles that give their outcome. *)

From Stdlib Require Import String Ascii List Bool ZArith QArith Qabs Qminmax Lia.
Import ListNotations.
Close Scope Q_scope.
Open Scope string_scope.

(** ** Types ([types.ts]) *)

Inductive AppMode := TryOn | Scene.
Inductive AspectRatio := AR_3_4 | AR_9_16 | AR_1_1.
Inductive ImageResolution := Res2K | Res4K.

Definition AppMode_eqb (m1 m2 : AppMode) : bool :=
  match m1, m2 with
  | TryOn, TryOn | Scene, Scene => true
  | _, _ => false
  end.

(** [Region]: percentages of the image, origin top-left. *)
Record Region := mkRegion {
  rx : Q; ry : Q; rwidth : Q; rheight : Q
}.

Module Asset.
(** [GeneratedAsset]; optional TypeScript fields are [option]s. *)
Record t := mk {
  id : string;
  imageUrl : option string;
  imagePrompt : string;
  isImageLoading : bool;
  error : option string;
  aspectRatio : AspectRatio;
  resolution : ImageResolution;
  feedbackDraft : option string;
  isVerifyingFeedback : option bool;
  feedbackInterpretation : option string;
  feedbackReferenceImages : option (list string);
  feedbackRegion : option Region
}.
End Asset.

Module Batch.
(** [GenerationBatch]. *)
Record t := mk {
  id : string;
  timestamp : Z;
  mode : AppMode;
  assets : list Asset.t
}.
End Batch.

Definition History := list Batch.t.

(** [Partial<GeneratedAsset>]: [None] means the key is absent from the
    update object; [Some v] means the key is present with value [v]
    (for an optional field, [Some None] is a key explicitly set to
    [undefined]). *)
Record AssetUpdate := mkUpdate {
  u_id : option string;
  u_imageUrl : option (option string);
  u_imagePrompt : option string;
  u_isImageLoading : option bool;
  u_error : option (option string);
  u_aspectRatio : option AspectRatio;
  u_resolution : option ImageResolution;
  u_feedbackDraft : option (option string);
  u_isVerifyingFeedback : option (option bool);
  u_feedbackInterpretation : option (option string);
  u_feedbackReferenceImages : option (option (list string));
  u_feedbackRegion : option (option Region)
}.

Definition override {A} (u : option A) (v : A) : A :=
  match u with Some w => w | None => v end.

(** [{ ...asset, ...updates }] *)
Definition apply_update (u : AssetUpdate) (a : Asset.t) : Asset.t :=
  Asset.mk
    (override (u_id u) (Asset.id a))
    (override (u_imageUrl u) (Asset.imageUrl a))
    (override (u_imagePrompt u) (Asset.imagePrompt a))
    (override (u_isImageLoading u) (Asset.isImageLoading a))
    (override (u_error u) (Asset.error a))
    (override (u_aspectRatio u) (Asset.aspectRatio a))
    (override (u_resolution u) (Asset.resolution a))
    (override (u_feedbackDraft u) (Asset.feedbackDraft a))
    (override (u_isVerifyingFeedback u) (Asset.isVerifyingFeedback a))
    (override (u_feedbackInterpretation u) (Asset.feedbackInterpretation a))
    (override (u_feedbackReferenceImages u) (Asset.feedbackReferenceImages a))
    (override (u_feedbackRegion u) (Asset.feedbackRegion a)).

(** [updateAssetInHistory] (App.tsx, lines 65-75). *)
Definition updateAssetInHistory (batchId assetId : string) (updates : AssetUpdate)
    (prevHistory : History) : History :=
  map (fun batch =>
         if negb (String.eqb (Batch.id batch) batchId) then batch
         else Batch.mk (Batch.id batch) (Batch.timestamp batch) (Batch.mode batch)
                (map (fun asset =>
                        if String.eqb (Asset.id asset) assetId
                        then apply_update updates asset else asset)
                     (Batch.assets batch)))
      prevHistory.

(** ** Frame relation between two histories

    [AssetsTransformed h h' bid aid P]: [h'] has the batches of [h] in the
    same order; batches whose id is not [bid] are identical; a batch with
    id [bid] keeps its id, timestamp and mode and its assets in the same
    order, assets whose id is not [aid] are identical, and an asset [a]
    with id [aid] becomes some [a'] with [P a a']. *)
Definition AssetsTransformed (h h' : History) (bid aid : string)
    (P : Asset.t -> Asset.t -> Prop) : Prop :=
  Forall2 (fun b b' =>
     if String.eqb (Batch.id b) bid then
       Batch.id b' = Batch.id b /\ Batch.timestamp b' = Batch.timestamp b /\
       Batch.mode b' = Batch.mode b /\
       Forall2 (fun a a' => if String.eqb (Asset.id a) aid then P a a' else a' = a)
               (Batch.assets b) (Batch.assets b')
     else b' = b) h h'.

(** Every field of an asset that the update does not name keeps its value. *)
Definition unnamed_fields_preserved (u : AssetUpdate) (a a' : Asset.t) : Prop :=
  (u_id u = None -> Asset.id a' = Asset.id a) /\
  (u_imageUrl u = None -> Asset.imageUrl a' = Asset.imageUrl a) /\
  (u_imagePrompt u = None -> Asset.imagePrompt a' = Asset.imagePrompt a) /\
  (u_isImageLoading u = None -> Asset.isImageLoading a' = Asset.isImageLoading a) /\
  (u_error u = None -> Asset.error a' = Asset.error a) /\
  (u_aspectRatio u = None -> Asset.aspectRatio a' = Asset.aspectRatio a) /\
  (u_resolution u = None -> Asset.resolution a' = Asset.resolution a) /\
  (u_feedbackDraft u = None -> Asset.feedbackDraft a' = Asset.feedbackDraft a) /\
  (u_isVerifyingFeedback u = None ->
     Asset.isVerifyingFeedback a' = Asset.isVerifyingFeedback a) /\
  (u_feedbackInterpretation u = None ->
     Asset.feedbackInterpretation a' = Asset.feedbackInterpretation a) /\
  (u_feedbackReferenceImages u = None ->
     Asset.feedbackReferenceImages a' = Asset.feedbackReferenceImages a) /\
  (u_feedbackRegion u = None -> Asset.feedbackRegion a' = Asset.feedbackRegion a).

(** The update objects written by the handlers of App.tsx. *)
Definition no_update : AssetUpdate :=
  mkUpdate None None None None None None None None None None None None.

(** [{ imageUrl: base64Image, isImageLoading: false }] *)
Definition upd_generated (url : string) : AssetUpdate :=
  mkUpdate None (Some (Some url)) None (Some false) None None None None None None None None.

(** [{ isImageLoading: false, error: errorMsg }] *)
Definition upd_failed (msg : string) : AssetUpdate :=
  mkUpdate None None None (Some false) (Some (Some msg)) None None None None None None None.

(** [{ isVerifyingFeedback: false, feedbackInterpretation: undefined,
       feedbackReferenceImages: undefined, feedbackRegion: undefined }] *)
Definition upd_verify_clear : AssetUpdate :=
  mkUpdate None None None None None None None None
    (Some (Some false)) (Some None) (Some None) (Some None).

(** [{ isVerifyingFeedback: true }] *)
Definition upd_verify_start : AssetUpdate :=
  mkUpdate None None None None None None None None (Some (Some true)) None None None.

(** [{ isVerifyingFeedback: false, feedbackInterpretation: interpretation,
       feedbackDraft: feedback, feedbackReferenceImages: files,
       feedbackRegion: region }] *)
Definition upd_verify_done (interpretation feedback : string) (files : list string)
    (region : option Region) : AssetUpdate :=
  mkUpdate None None None None None None None (Some (Some feedback))
    (Some (Some false)) (Some (Some interpretation)) (Some (Some files)) (Some region).

(** [{ isImageLoading: true, error: undefined, feedbackInterpretation: undefined }] *)
Definition upd_regen_start : AssetUpdate :=
  mkUpdate None None None (Some true) (Some None) None None None None (Some None) None None.

(** [{ imageUrl: base64Image, isImageLoading: false,
       feedbackReferenceImages: undefined, feedbackRegion: undefined }] *)
Definition upd_regen_done (url : string) : AssetUpdate :=
  mkUpdate None (Some (Some url)) None (Some false) None None None None None None
    (Some None) (Some None).

(** [{ isImageLoading: false, error: "重绘失败" }] *)
Definition upd_regen_failed : AssetUpdate :=
  mkUpdate None None None (Some false) (Some (Some "重绘失败")) None None None None None
    None None.

(** ** JavaScript helpers *)

(** [haystack.includes(needle)] *)
Definition includes (haystack needle : string) : bool :=
  match String.index 0 needle haystack with Some _ => true | None => false end.

Fixpoint digits_of (fuel : nat) (n : Z) (acc : string) : string :=
  match fuel with
  | O => acc
  | S f =>
      let acc' := String (ascii_of_nat (48 + Z.to_nat (Z.modulo n 10))) acc in
      if Z.ltb n 10 then acc' else digits_of f (Z.div n 10) acc'
  end.

(** [n.toString()] for an integer [n] below [10^20] in absolute value. *)
Definition Number_toString (n : Z) : string :=
  if Z.ltb n 0 then "-" ++ digits_of 20 (Z.opp n) "" else digits_of 20 n "".

(** A thrown value.  [ThrownNull] is [throw null]: reading a property of
    it raises a [TypeError] and [JSON.stringify] gives ["null"].
    [ThrownObject status responseStatus message str json] is an object
    with [error.status], [error.response?.status], [error.message],
    [String(error)] and [JSON.stringify(error)]; a missing property is
    [None]. *)
Inductive Thrown :=
| ThrownNull
| ThrownObject (status responseStatus : option Z) (message : option string)
    (str json : string).

Inductive Result (A : Type) :=
| Ok (v : A)
| Throw (e : Thrown).
Arguments Ok {A} v.
Arguments Throw {A} e.

Definition JSON_stringify (e : Thrown) : string :=
  match e with
  | ThrownNull => "null"
  | ThrownObject _ _ _ _ json => json
  end.

(** ** Batch generation ([handleGenerate], App.tsx lines 79-164) *)

Record UploadedFile := mkFile { previewUrl : string; base64 : string }.

Record Dimensions := mkDimensions { dwidth : string; dheight : string; unit : string }.

Record AppState := mkState {
  activeMode : AppMode;
  productImages : list UploadedFile;
  referenceImages : list UploadedFile;
  modelImage : option UploadedFile;
  category : string;
  instructions : string;
  scenePrompt : string;
  dimensions : Dimensions;
  aspectRatio : AspectRatio;
  history : History;
  isGenerating : bool
}.

Definition set_history (s : AppState) (h : History) (g : bool) : AppState :=
  mkState (activeMode s) (productImages s) (referenceImages s) (modelImage s)
    (category s) (instructions s) (scenePrompt s) (dimensions s) (aspectRatio s) h g.

Definition getDimensionText (s : AppState) : string :=
  let d := dimensions s in
  if negb (String.eqb (dwidth d) "") && negb (String.eqb (dheight d) "")
  then dwidth d ++ unit d ++ " x " ++ dheight d ++ unit d
  else "标准珠宝尺寸".

Record Task := mkTask { task_id : string; label : string; prompt : string }.

(** The task list built by [handleGenerate] for a mode. *)
Definition generationTasks (mode : AppMode) (batchId scenePrompt : string) : list Task :=
  match mode with
  | TryOn =>
      [ mkTask (batchId ++ "-0") "细节特写" "Extreme close-up macro shot focused entirely on the jewelry texture and craftsmanship. Shallow depth of field.";
        mkTask (batchId ++ "-1") "近景正面" "Close-up portrait (Chest up/Face). Front view. Perfect symmetry showing how the jewelry hangs/sits.";
        mkTask (batchId ++ "-2") "近景侧面" "Close-up side profile (45-degree). Highlighting structural depth.";
        mkTask (batchId ++ "-3") "手部互动" "Model is gently touching the jewelry or adjusting it. Elegant hand pose interacting with the product." ]
  | Scene =>
      [ mkTask (batchId ++ "-0") "场景展示 1" scenePrompt;
        mkTask (batchId ++ "-1") "场景展示 2" (scenePrompt ++ " (Variation in angle)");
        mkTask (batchId ++ "-2") "场景展示 3" (scenePrompt ++ " (Variation in lighting)") ]
  end.

(** The placeholder asset of a task. *)
Definition placeholder (ar : AspectRatio) (t : Task) : Asset.t :=
  Asset.mk (task_id t) None (label t) true None ar Res2K None None None None None.

(** Parameters of [generateTryOnImage] / [generateSceneImage]. *)
Inductive GenRequest :=
| TryOnReq (productBase64s referenceBase64s : list string) (modelBase64 : string)
    (dimensionsText : string) (ar : AspectRatio) (viewpoint category instructions : string)
    (feedback : option string) (feedbackReferenceBase64s : option (list string))
    (feedbackRegion : option Region) (resolution : ImageResolution)
| SceneReq (productBase64s : list string) (referenceBase64s : option (list string))
    (modelBase64 : option string) (scenePrompt : string) (ar : AspectRatio)
    (category instructions : string)
    (feedback : option string) (feedbackReferenceBase64s : option (list string))
    (feedbackRegion : option Region) (resolution : ImageResolution).

(** The external image generation service: the outcome of the [n]-th call
    made by a handler, for the given request. *)
Definition GenService := nat -> GenRequest -> Result string.

Definition taskRequest (s : AppState) (t : Task) : GenRequest :=
  match activeMode s with
  | TryOn =>
      TryOnReq (map base64 (productImages s)) (map base64 (referenceImages s))
        (match modelImage s with Some m => base64 m | None => "" end)
        (getDimensionText s) (aspectRatio s) (prompt t) (category s) (instructions s)
        None None None Res2K
  | Scene =>
      SceneReq (map base64 (productImages s))
        (match referenceImages s with [] => None | l => Some (map base64 l) end)
        (option_map base64 (modelImage s)) (prompt t) (aspectRatio s)
        (category s) (instructions s) None None None Res2K
  end.

(** The message put on an asset whose generation failed. *)
Definition generateErrorMsg (error : Thrown) : string :=
  let errorString := JSON_stringify error in
  if includes errorString "User location is not supported"
  then "所在地区暂不支持 (请检查网络/VPN)。"
  else if includes errorString "500" || includes errorString "Internal Server Error"
  then "服务器繁忙，请稍后重试。"
  else "生成失败，请重试。".

(** Observable events of [handleGenerate]: the history right after the
    batch is prepended, the start of a generation call for a task, and
    its settlement. *)
Inductive GenEvent :=
| BatchCreated (h : History)
| Dispatch (taskId : string)
| Settled (taskId : string) (r : Result string).

(** The [for (const task of tasks) { try { await ... } catch ... }] loop;
    [n] counts the calls already made. *)
Fixpoint runTasks (s : AppState) (batchId : string) (gen : GenService) (n : nat)
    (tasks : list Task) (h : History) : History * list GenEvent :=
  match tasks with
  | [] => (h, [])
  | task :: rest =>
      let r := gen n (taskRequest s task) in
      let h1 := match r with
                | Ok base64Image => updateAssetInHistory batchId (task_id task) (upd_generated base64Image) h
                | Throw error => updateAssetInHistory batchId (task_id task) (upd_failed (generateErrorMsg error)) h
                end in
      let (h2, ev) := runTasks s batchId gen (S n) rest h1 in
      (h2, Dispatch (task_id task) :: Settled (task_id task) r :: ev)
  end.

(** The validation at the top of [handleGenerate]. *)
Definition generateInputsValid (s : AppState) : bool :=
  match productImages s with
  | [] => false
  | _ =>
      match activeMode s with
      | TryOn => negb (match referenceImages s with [] => true | _ => false end) &&
                 match modelImage s with Some _ => true | None => false end
      | Scene => true
      end
  end.

(** The synchronous part of [handleGenerate], up to its first [await]:
    the batch id, its tasks and the history with the new batch in front.
    [now] is the value of [Date.now()]. *)
Definition startGeneration (s : AppState) (now : Z) : option (string * list Task * History) :=
  if generateInputsValid s then
    let batchId := Number_toString now in
    let tasks := generationTasks (activeMode s) batchId (scenePrompt s) in
    let newAssets := map (placeholder (aspectRatio s)) tasks in
    Some (batchId, tasks,
          Batch.mk batchId now (activeMode s) newAssets :: history s)
  else None.

Definition handleGenerate (s : AppState) (now : Z) (gen : GenService) : AppState * list GenEvent :=
  match startGeneration s now with
  | None => (s, [])
  | Some (batchId, tasks, h0) =>
      let (h1, ev) := runTasks s batchId gen 0 tasks h0 in
      (set_history s h1 false, BatchCreated h0 :: ev)
  end.

(** ** Retry controller ([retryOperation], geminiService.ts lines 10-50) *)

(** Calls to the operation (numbered from 0) and [sleep]s. *)
Inductive RetryEvent :=
| Attempt (k : nat)
| Sleep (ms : Z).

(** The inspection inside the inner [try]: [(status, message)] with
    [status = error.status || error.response?.status] and
    [message = error.message || String(error)]; [None] when reading the
    properties throws. *)
Definition inspectError (error : Thrown) : option (option Z * string) :=
  match error with
  | ThrownNull => None
  | ThrownObject st rst msg str _ =>
      let status := match st with
                    | Some v => if Z.eqb v 0 then rst else Some v
                    | None => rst
                    end in
      let message := match msg with
                     | Some m => if String.eqb m "" then str else m
                     | None => str
                     end in
      Some (status, message)
  end.

Definition status_is (status : option Z) (code : Z) : bool :=
  match status with Some v => Z.eqb v code | None => false end.

(** [isRetryable] as computed by the classifier, including the
    [catch (e) { isRetryable = true }] of the inspection. *)
Definition isRetryableError (error : Thrown) : bool :=
  match inspectError error with
  | None => true
  | Some (status, message) =>
      status_is status 503 || status_is status 500 || status_is status 429 ||
      includes message "Deadline expired" ||
      includes message "Overloaded" ||
      includes message "UNAVAILABLE" ||
      includes message "Unexpected end of JSON input" ||
      includes message "Failed to construct 'Response'" ||
      includes message "Response body object should not be disturbed" ||
      includes message "ReadableStreamDefaultController" ||
      includes message "network" ||
      includes message "fetch"
  end.

(** [retryOperation(operation, retries, delay)]; [operation k] is the
    outcome of the [k]-th call of the operation.  [retries] is a
    non-negative integer at every call site (5 and 2), so [retries <= 0]
    is [retries = 0]. *)
Fixpoint retryOperation_from {A} (operation : nat -> Result A) (k : nat)
    (retries : nat) (delay : Z) : Result A * list RetryEvent :=
  match operation k with
  | Ok v => (Ok v, [Attempt k])
  | Throw error =>
      match retries with
      | O => (Throw error, [Attempt k])
      | S retries' =>
          if isRetryableError error then
            let (res, ev) := retryOperation_from operation (S k) retries' (delay * 2)%Z in
            (res, Attempt k :: Sleep delay :: ev)
          else (Throw error, [Attempt k])
      end
  end.

Definition retryOperation {A} (operation : nat -> Result A) (retries : nat) (delay : Z)
    : Result A * list RetryEvent :=
  retryOperation_from operation 0 retries delay.

(** ** Intent verification ([verifyFeedbackIntent], geminiService.ts lines 69-136) *)

Definition is_js_space (c : ascii) : bool :=
  let n := nat_of_ascii c in
  (9 <=? n)%nat && (n <=? 13)%nat || (n =? 32)%nat.

Fixpoint drop_spaces (l : list ascii) : list ascii :=
  match l with
  | c :: l' => if is_js_space c then drop_spaces l' else l
  | [] => []
  end.

(** [s.trim()] for ASCII white space. *)
Definition js_trim (s : string) : string :=
  string_of_list_ascii (rev (drop_spaces (rev (drop_spaces (list_ascii_of_string s))))).

(** What the interpretation model is asked about. *)
Record VerifyRequest := mkVerifyRequest {
  vr_originalPrompt : string;
  vr_feedback : string;
  vr_currentImage : option string;
  vr_references : list string;
  vr_region : option Region
}.

(** The external interpretation service: outcome of its [k]-th call,
    the resolved value being [response.text]. *)
Definition InterpretService := nat -> VerifyRequest -> Result (option string).

(** The operation passed to [retryOperation] by [verifyFeedbackIntent]:
    [response.text?.trim() || "确认您的修改需求"]. *)
Definition verifyOperation (api : InterpretService) (req : VerifyRequest) (k : nat)
    : Result string :=
  match api k req with
  | Ok text =>
      Ok (match text with
          | Some t => let t' := js_trim t in
                      if String.eqb t' "" then "确认您的修改需求" else t'
          | None => "确认您的修改需求"
          end)
  | Throw e => Throw e
  end.

Definition verifyFeedbackIntent (originalPrompt feedback : string)
    (currentImageBase64 : option string) (feedbackReferenceBase64s : list string)
    (region : option Region) (api : InterpretService) : Result string :=
  let req := mkVerifyRequest originalPrompt feedback currentImageBase64
               feedbackReferenceBase64s region in
  match fst (retryOperation (verifyOperation api req) 2 1000) with
  | Ok v => Ok v
  | Throw e => Ok ("确认您的需求：" ++ feedback)
  end.

(** ** Feedback handlers of App.tsx *)

(** [history.find(b => b.assets.some(a => a.id === assetId))] *)
Definition findBatchOf (h : History) (assetId : string) : option Batch.t :=
  find (fun b => existsb (fun a => String.eqb (Asset.id a) assetId) (Batch.assets b)) h.

(** [batch.assets.find(a => a.id === assetId)] *)
Definition findAsset (batch : Batch.t) (assetId : string) : option Asset.t :=
  find (fun a => String.eqb (Asset.id a) assetId) (Batch.assets batch).

(** [handleVerifyIntent] (lines 168-196): the new history and the number
    of calls made to [verifyFeedbackIntent]. *)
Definition handleVerifyIntent (h : History) (assetId feedback : string)
    (files : list string) (region : option Region) (api : InterpretService)
    : History * nat :=
  match findBatchOf h assetId with
  | None => (h, 0)
  | Some batch =>
      if String.eqb feedback "" &&
         match files with [] => true | _ => false end &&
         match region with None => true | Some _ => false end
      then (updateAssetInHistory (Batch.id batch) assetId upd_verify_clear h, 0)
      else
        let h1 := updateAssetInHistory (Batch.id batch) assetId upd_verify_start h in
        let asset := findAsset batch assetId in
        let originalPrompt := match asset with Some a => Asset.imagePrompt a | None => "" end in
        let currentImageUrl := match asset with Some a => Asset.imageUrl a | None => None end in
        match verifyFeedbackIntent originalPrompt feedback currentImageUrl files region api with
        | Ok interpretation =>
            (updateAssetInHistory (Batch.id batch) assetId
               (upd_verify_done interpretation feedback files region) h1, 1)
        | Throw _ => (h1, 1)
        end
  end.

(** The request built by [handleRegenerate] (lines 210-244); it throws
    before any call in try-on mode when the original inputs are gone. *)
Definition regenerateRequest (s : AppState) (batch : Batch.t) (asset : Asset.t)
    (feedback : string) : Result GenRequest :=
  match Batch.mode batch with
  | TryOn =>
      match referenceImages s, modelImage s with
      | [], _ | _, None =>
          Throw (ThrownObject None None (Some "缺少原图信息") "Error: 缺少原图信息" "{}")
      | refs, Some m =>
          Ok (TryOnReq (map base64 (productImages s)) (map base64 refs) (base64 m)
                (getDimensionText s) (Asset.aspectRatio asset) (Asset.imagePrompt asset)
                (category s) (instructions s) (Some feedback)
                (Asset.feedbackReferenceImages asset) (Asset.feedbackRegion asset)
                (Asset.resolution asset))
      end
  | Scene =>
      Ok (SceneReq (map base64 (productImages s))
            (match referenceImages s with [] => None | l => Some (map base64 l) end)
            (option_map base64 (modelImage s)) (scenePrompt s) (Asset.aspectRatio asset)
            (category s) (instructions s ++ ". FEEDBACK: " ++ feedback) None
            (Asset.feedbackReferenceImages asset) (Asset.feedbackRegion asset)
            (Asset.resolution asset))
  end.

(** The outcome of the awaited generation of [handleRegenerate]. *)
Definition regenerateCall (s : AppState) (batch : Batch.t) (asset : Asset.t)
    (feedback : string) (gen : GenService) : Result string :=
  match regenerateRequest s batch asset feedback with
  | Ok req => gen 0 req
  | Throw e => Throw e
  end.

(** [handleRegenerate] (lines 198-249): the history after the reset at
    the start and the history once the call has settled. *)
Definition handleRegenerate (s : AppState) (assetId feedback : string) (gen : GenService)
    : History * History :=
  let h := history s in
  match findBatchOf h assetId with
  | None => (h, h)
  | Some batch =>
      match findAsset batch assetId with
      | None => (h, h)
      | Some asset =>
          let h1 := updateAssetInHistory (Batch.id batch) assetId upd_regen_start h in
          let h2 := match regenerateCall s batch asset feedback gen with
                    | Ok base64Image =>
                        updateAssetInHistory (Batch.id batch) assetId (upd_regen_done base64Image) h1
                    | Throw _ =>
                        updateAssetInHistory (Batch.id batch) assetId upd_regen_failed h1
                    end in
          (h1, h2)
      end
  end.

(** ** Region selector (ResultGallery.tsx, lines 235-265) *)

Record DOMRect := mkRect { left : Q; top : Q; width : Q; height : Q }.

Record SelectorState := mkSelector {
  isSelecting : bool;
  isDragging : bool;
  startPos : Q * Q;
  selection : option Region
}.

(** Pointer position as percentages of the image container. *)
Definition toPercent (rect : DOMRect) (clientX clientY : Q) : Q * Q :=
  ((((clientX - left rect) / width rect) * 100)%Q, (((clientY - top rect) / height rect) * 100)%Q).

(** [Math.min] on non-NaN numbers. *)
Definition Math_min (a b : Q) : Q := if Qle_bool a b then a else b.

Definition handleMouseDown (container : option DOMRect) (clientX clientY : Q)
    (st : SelectorState) : SelectorState :=
  if negb (isSelecting st) then st else
  match container with
  | None => st
  | Some rect =>
      let (x, y) := toPercent rect clientX clientY in
      mkSelector (isSelecting st) true (x, y) (Some (mkRegion x y 0%Q 0%Q))
  end.

Definition handleMouseMove (container : option DOMRect) (clientX clientY : Q)
    (st : SelectorState) : SelectorState :=
  if negb (isDragging st) then st else
  match container with
  | None => st
  | Some rect =>
      let (currentX, currentY) := toPercent rect clientX clientY in
      let w := Qabs (currentX - fst (startPos st))%Q in
      let hgt := Qabs (currentY - snd (startPos st))%Q in
      let x := Math_min currentX (fst (startPos st)) in
      let y := Math_min currentY (snd (startPos st)) in
      mkSelector (isSelecting st) (isDragging st) (startPos st) (Some (mkRegion x y w hgt))
  end.


(** ** Image service helpers (geminiService.ts) *)

(** [s.split(sep)] *)
Fixpoint js_split_go (sep : ascii) (s : string) (cur : string) : list string :=
  match s with
  | EmptyString => [cur]
  | String c s' =>
      if Ascii.eqb c sep then cur :: js_split_go sep s' ""
      else js_split_go sep s' (cur ++ String c "")
  end.

Definition js_split (sep : ascii) (s : string) : list string := js_split_go sep s "".

(** [stripBase64] (line 5): [base64.split(',')[1] || base64]. *)
Definition stripBase64 (base64 : string) : string :=
  match nth_error (js_split "," base64) 1 with
  | Some p => if String.eqb p "" then base64 else p
  | None => base64
  end.

(** A part of the model response: [part.inlineData?.data]. *)
Record ResponsePart := mkPart { inlineData : option string }.

(** The image model: outcome of its [k]-th call, resolving to
    [response.candidates?.[0]?.content?.parts] ([None] when missing). *)
Definition ImageModel := nat -> Result (option (list ResponsePart)).

Definition noImageError : Thrown :=
  ThrownObject None None (Some "No image data returned from API")
    "Error: No image data returned from API" "{}".

(** The [operation] of [callImageModel] (lines 294-312). *)
Definition imageOperation (api : ImageModel) (k : nat) : Result string :=
  match api k with
  | Throw e => Throw e
  | Ok parts =>
      match find (fun p => match inlineData p with Some _ => true | None => false end)
                 (match parts with Some l => l | None => [] end) with
      | Some p => Ok ("data:image/png;base64," ++ match inlineData p with Some d => d | None => "" end)
      | None => Throw noImageError
      end
  end.

(** [callImageModel] (lines 293-321): retried 5 times from 4000 ms; the
    [catch] logs and rethrows, so the retried outcome is the result. *)
Definition callImageModel (api : ImageModel) : Result string * list RetryEvent :=
  retryOperation (imageOperation api) 5 4000.

(** ** High-resolution download ([handleDownloadHighRes], App.tsx lines 251-301) *)

Definition resolution_string (r : ImageResolution) : string :=
  match r with Res2K => "2K" | Res4K => "4K" end.

(** A browser download: the link's [href] and [download] name. *)
Record DownloadEvent := mkDownload { href : string; filename : string }.

(** [{ isImageLoading: true, resolution: resolution }] *)
Definition upd_highres_start (r : ImageResolution) : AssetUpdate :=
  mkUpdate None None None (Some true) None None (Some r) None None None None None.

(** [{ isImageLoading: false, error: "高清生成失败", resolution: '2K' }] *)
Definition upd_highres_failed : AssetUpdate :=
  mkUpdate None None None (Some false) (Some (Some "高清生成失败")) None (Some Res2K)
    None None None None None.

Definition highResRequest (s : AppState) (batch : Batch.t) (asset : Asset.t)
    (resolution : ImageResolution) : Result GenRequest :=
  match Batch.mode batch with
  | TryOn =>
      match referenceImages s, modelImage s with
      | [], _ | _, None =>
          Throw (ThrownObject None None (Some "缺少原图") "Error: 缺少原图" "{}")
      | refs, Some m =>
          Ok (TryOnReq (map base64 (productImages s)) (map base64 refs) (base64 m)
                (getDimensionText s) (Asset.aspectRatio asset) (Asset.imagePrompt asset)
                (category s) (instructions s) None None None resolution)
      end
  | Scene =>
      Ok (SceneReq (map base64 (productImages s))
            (match referenceImages s with [] => None | l => Some (map base64 l) end)
            (option_map base64 (modelImage s)) (scenePrompt s) (Asset.aspectRatio asset)
            (category s) (instructions s) None None None resolution)
  end.

Definition highResCall (s : AppState) (batch : Batch.t) (asset : Asset.t)
    (resolution : ImageResolution) (gen : GenService) : Result string :=
  match highResRequest s batch asset resolution with
  | Ok req => gen 0 req
  | Throw e => Throw e
  end.

(** The history after the loading update, the final history and the
    downloads triggered. *)
Definition handleDownloadHighRes (s : AppState) (assetId : string)
    (resolution : ImageResolution) (gen : GenService)
    : History * History * list DownloadEvent :=
  let h := history s in
  match findBatchOf h assetId with
  | None => (h, h, [])
  | Some batch =>
      match findAsset batch assetId with
      | None => (h, h, [])
      | Some asset =>
          let h1 := updateAssetInHistory (Batch.id batch) assetId
                      (upd_highres_start resolution) h in
          match highResCall s batch asset resolution gen with
          | Ok base64Image =>
              (h1, updateAssetInHistory (Batch.id batch) assetId (upd_generated base64Image) h1,
               [mkDownload base64Image
                  ("luxefit-" ++ assetId ++ "-" ++ resolution_string resolution ++ ".png")])
          | Throw _ =>
              (h1, updateAssetInHistory (Batch.id batch) assetId upd_highres_failed h1, [])
          end
      end
  end.

(** ** Result card (ResultGallery.tsx) *)

(** What the card's [handleDownload] (lines 220-233) does: hand over to
    [onDownloadHighRes], or download [asset.imageUrl!] directly. *)
Inductive CardDownload :=
| CallDownloadHighRes (assetId : string) (r : ImageResolution)
| DirectDownload (href : option string) (filename : string).

Definition cardHandleDownload (asset : Asset.t) (res : ImageResolution) : CardDownload :=
  match res, Asset.resolution asset with
  | Res4K, Res2K => CallDownloadHighRes (Asset.id asset) Res4K
  | _, _ => DirectDownload (Asset.imageUrl asset)
              ("luxefit-" ++ Asset.id asset ++ "-" ++ resolution_string res ++ ".png")
  end.

(** [handleVerifyClick] (lines 205-208): the arguments passed to
    [onVerifyIntent], or [None] when it returns early. *)
Definition handleVerifyClick (feedbackText : string) (feedbackImages : list string)
    (selection : option Region) : option (string * list string * option Region) :=
  if String.eqb (js_trim feedbackText) "" &&
     match feedbackImages with [] => true | _ => false end &&
     match selection with None => true | Some _ => false end
  then None
  else Some (feedbackText, feedbackImages, selection).

(** [removeFeedbackImage] (lines 200-202):
    [prev.filter((_, i) => i !== index)]. *)
Definition removeFeedbackImage {A} (index : nat) (prev : list A) : list A :=
  map fst (filter (fun p => negb (Nat.eqb (snd p) index)) (combine prev (seq 0 (length prev)))).

(** [handleMouseUp] (lines 264-266). *)
Definition handleMouseUp (st : SelectorState) : SelectorState :=
  mkSelector (isSelecting st) false (startPos st) (selection st).

(** [toggleSelectionMode] (lines 268-273); [isSelecting] is read before
    the state update. *)
Definition toggleSelectionMode (st : SelectorState) : SelectorState :=
  mkSelector (negb (isSelecting st)) (isDragging st) (startPos st)
    (if isSelecting st then None else selection st).

(** ** File upload ([FileUpload.tsx]) *)

(** The [value] of an upload slot. *)
Inductive UploadValue :=
| VNull
| VOne (f : UploadedFile)
| VMany (l : list UploadedFile).

(** [newFiles.splice(index, 1)] for an index [>= 0]. *)
Fixpoint splice1 {A} (l : list A) (index : nat) : list A :=
  match l, index with
  | [], _ => []
  | _ :: l', O => l'
  | x :: l', S i => x :: splice1 l' i
  end.

(** [handleClear] (lines 55-67): the value passed to [onChange], or
    [None] when [onChange] is not called. *)
Definition handleClear (multiple : bool) (value : UploadValue) (index : option nat)
    : option UploadValue :=
  match multiple, value with
  | true, VMany l =>
      match index with
      | Some i => Some (VMany (splice1 l i))
      | None => None
      end
  | _, _ => Some VNull
  end.

(** ** Generate button of App.tsx (lines 496-498) *)

Definition generateButtonDisabled (s : AppState) : bool :=
  isGenerating s ||
  match productImages s with [] => true | _ => false end ||
  (AppMode_eqb (activeMode s) TryOn &&
   (match referenceImages s with [] => true | _ => false end ||
    match modelImage s with None => true | Some _ => false end)).

(** ** Properties stated by the specification *)

(** Total time slept in a trace of [retryOperation]. *)
Fixpoint total_sleep (ev : list RetryEvent) : Z :=
  match ev with
  | [] => 0
  | Sleep ms :: ev' => ms + total_sleep ev'
  | Attempt _ :: ev' => total_sleep ev'
  end.

Definition retryableStatuses : list Z := [503; 500; 429]%Z.

Definition transientSignatures : list string :=
  [ "Deadline expired"; "Overloaded"; "UNAVAILABLE"; "Unexpected end of JSON input";
    "Failed to construct 'Response'"; "Response body object should not be disturbed";
    "ReadableStreamDefaultController"; "network"; "fetch" ].

(** An error status / message the classifier recognizes as transient. *)
Definition recognized (status : option Z) (message : string) : Prop :=
  (exists c, In c retryableStatuses /\ status = Some c) \/
  (exists sig, In sig transientSignatures /\ includes message sig = true).

(** The trace of [retryOperation_from] that stops after the attempt
    [k + m]: attempts [k .. k+m] with sleeps [delay], [2 delay], ... in
    between. *)
Fixpoint backoffTrace (k : nat) (delay : Z) (m : nat) : list RetryEvent :=
  match m with
  | O => [Attempt k]
  | S m' => Attempt k :: Sleep delay :: backoffTrace (S k) (delay * 2) m'
  end.

(** * Lemmas *)

Lemma apply_update_unnamed (u : AssetUpdate) (a : Asset.t) :
  unnamed_fields_preserved u a (apply_update u a).
Proof.
  unfold unnamed_fields_preserved, apply_update; simpl.
  repeat split; intros E; rewrite E; reflexivity.
Qed.

Lemma updateAssetInHistory_transforms (h : History) (bid aid : string) (u : AssetUpdate) :
  AssetsTransformed h (updateAssetInHistory bid aid u h) bid aid
    (fun a a' => a' = apply_update u a).
Proof.
  unfold AssetsTransformed, updateAssetInHistory.
  induction h as [|b h IH]; simpl; constructor; [|exact IH].
  destruct (String.eqb (Batch.id b) bid); simpl; [|reflexivity].
  repeat split.
  induction (Batch.assets b) as [|a l IHl]; simpl; constructor; [|exact IHl].
  destruct (String.eqb (Asset.id a) aid); reflexivity.
Qed.

Lemma AssetsTransformed_impl (h h' : History) (bid aid : string)
    (P Q : Asset.t -> Asset.t -> Prop) :
  (forall a a', P a a' -> Q a a') ->
  AssetsTransformed h h' bid aid P -> AssetsTransformed h h' bid aid Q.
Proof.
  intros HPQ H. unfold AssetsTransformed in *.
  induction H as [|b b' h h' Hb _ IH]; constructor; [|exact IH].
  destruct (String.eqb (Batch.id b) bid); [|exact Hb].
  destruct Hb as (E1 & E2 & E3 & Ha). repeat split; try assumption.
  clear E1 E2 E3.
  induction Ha as [|a a' l l' Ha1 _ IHa]; constructor; [|exact IHa].
  destruct (String.eqb (Asset.id a) aid); auto.
Qed.

Lemma AssetsTransformed_compose (h h1 h2 : History) (bid aid : string)
    (P1 P2 : Asset.t -> Asset.t -> Prop) :
  (forall a a', P1 a a' -> Asset.id a' = Asset.id a) ->
  AssetsTransformed h h1 bid aid P1 ->
  AssetsTransformed h1 h2 bid aid P2 ->
  AssetsTransformed h h2 bid aid (fun a a2 => exists a1, P1 a a1 /\ P2 a1 a2).
Proof.
  intros Hid H1. unfold AssetsTransformed in *. revert h2.
  induction H1 as [|b b1 h h1 Hb _ IH]; intros h2 H2; inversion H2 as [|x b2 y h2' Hb2 Hrest]; subst.
  - constructor.
  - constructor; [|apply IH; exact Hrest].
    destruct (String.eqb (Batch.id b) bid) eqn:Eb.
    + destruct Hb as (E1 & E2 & E3 & Ha1).
      rewrite E1, Eb in Hb2. destruct Hb2 as (F1 & F2 & F3 & Ha2).
      repeat split; try congruence.
      clear E1 E2 E3 F1 F2 F3 Hrest. revert Ha2.
      generalize (Batch.assets b2). 
      induction Ha1 as [|a a1 l l1 Ha _ IHa]; intros l2 Ha2;
        inversion Ha2 as [|y a2 z l2' Hy Hz]; subst; constructor; auto.
      destruct (String.eqb (Asset.id a) aid) eqn:Ea.
      * rewrite (Hid _ _ Ha), Ea in Hy. eauto.
      * subst. rewrite Ea in Hy. exact Hy.
    + subst. rewrite Eb in Hb2. exact Hb2.
Qed.

Lemma override_idem {A} (u : option A) (v : A) : override u (override u v) = override u v.
Proof. destruct u; reflexivity. Qed.

Lemma apply_update_idem (u : AssetUpdate) (a : Asset.t) :
  apply_update u (apply_update u a) = apply_update u a.
Proof. unfold apply_update at 1 2; simpl; rewrite !override_idem; reflexivity. Qed.

Lemma apply_update_id (u : AssetUpdate) (a : Asset.t) :
  u_id u = None -> Asset.id (apply_update u a) = Asset.id a.
Proof. intros E; unfold apply_update; simpl; rewrite E; reflexivity. Qed.

Lemma updateAssetInHistory_idem (h : History) (bid aid : string) (u : AssetUpdate) :
  u_id u = None ->
  updateAssetInHistory bid aid u (updateAssetInHistory bid aid u h) =
  updateAssetInHistory bid aid u h.
Proof.
  intros Hu. unfold updateAssetInHistory. rewrite map_map. apply map_ext. intros b.
  destruct (String.eqb (Batch.id b) bid) eqn:Eb; simpl; rewrite ?Eb; simpl; [|reflexivity].
  f_equal. rewrite map_map. apply map_ext. intros a.
  destruct (String.eqb (Asset.id a) aid) eqn:Ea.
  - rewrite (apply_update_id _ _ Hu), Ea, apply_update_idem. reflexivity.
  - rewrite Ea. reflexivity.
Qed.

Lemma findBatchOf_update (h : History) (bid aid x : string) (u : AssetUpdate) :
  u_id u = None ->
  option_map Batch.id (findBatchOf (updateAssetInHistory bid aid u h) x) =
  option_map Batch.id (findBatchOf h x).
Proof.
  intros Hu. unfold findBatchOf, updateAssetInHistory.
  induction h as [|b h IH]; simpl; [reflexivity|].
  destruct (String.eqb (Batch.id b) bid) eqn:Eb; simpl.
  - assert (E : existsb (fun a => String.eqb (Asset.id a) x)
                  (map (fun asset => if String.eqb (Asset.id asset) aid
                                     then apply_update u asset else asset) (Batch.assets b))
                = existsb (fun a => String.eqb (Asset.id a) x) (Batch.assets b)).
    { induction (Batch.assets b) as [|a l IHl]; simpl; [reflexivity|].
      rewrite IHl. destruct (String.eqb (Asset.id a) aid); [rewrite (apply_update_id _ _ Hu)|];
      reflexivity. }
    rewrite E. destruct (existsb _ (Batch.assets b)); [reflexivity|exact IH].
  - destruct (existsb _ (Batch.assets b)); [reflexivity|exact IH].
Qed.

Lemma runTasks_trace (s : AppState) (bid : string) (gen : GenService) (tasks : list Task) :
  forall (n : nat) (h : History),
    let ev := snd (runTasks s bid gen n tasks h) in
    length ev = (2 * length tasks)%nat /\
    forall i t, nth_error tasks i = Some t ->
      nth_error ev (2 * i)%nat = Some (Dispatch (task_id t)) /\
      nth_error ev (2 * i + 1)%nat = Some (Settled (task_id t) (gen (n + i)%nat (taskRequest s t))).
Proof.
  induction tasks as [|t ts IH]; intros n h; cbv zeta.
  - split; [reflexivity|]. intros i t H; destruct i; discriminate.
  - cbn [runTasks].
    match goal with |- context [runTasks s bid gen (S n) ts ?h1] =>
      destruct (IH (S n) h1) as [Hlen Hnth];
      destruct (runTasks s bid gen (S n) ts h1) as [h2 ev] end.
    cbn [snd] in *.
    split; [cbn [length]; lia|].
    intros [|i] t' Ht.
    + cbn in Ht. injection Ht as <-.
      split; [reflexivity|rewrite Nat.add_0_r; reflexivity].
    + cbn in Ht. destruct (Hnth i t' Ht) as [D S'].
      replace (2 * S i)%nat with (S (S (2 * i))) by lia.
      replace (S (S (2 * i)) + 1)%nat with (S (S (2 * i + 1))) by lia.
      replace (n + S i)%nat with (S n + i)%nat by lia.
      split; assumption.
Qed.

Lemma runTasks_no_batch_event (s : AppState) (bid : string) (gen : GenService)
    (tasks : list Task) (n : nat) (h : History) :
  Forall (fun e => match e with BatchCreated _ => False | _ => True end)
    (snd (runTasks s bid gen n tasks h)).
Proof.
  revert n h. induction tasks as [|t ts IH]; intros n h; simpl; [constructor|].
  match goal with |- context [runTasks s bid gen (S n) ts ?h1] =>
    specialize (IH (S n) h1); destruct (runTasks s bid gen (S n) ts h1) as [h2 ev] end.
  simpl in *. repeat constructor. exact IH.
Qed.

Lemma generateInputsValid_intro (s : AppState) :
  productImages s <> [] ->
  (activeMode s = TryOn -> referenceImages s <> [] /\ modelImage s <> None) ->
  generateInputsValid s = true.
Proof.
  intros Hp Ht. unfold generateInputsValid.
  destruct (productImages s) as [|p ps]; [congruence|].
  destruct (activeMode s); [|reflexivity].
  destruct (Ht eq_refl) as [Hr Hm].
  destruct (referenceImages s); [congruence|]. destruct (modelImage s); [reflexivity|congruence].
Qed.

Lemma Math_min_Qmin (a b : Q) : Math_min a b = Qmin a b.
Proof.
  unfold Math_min, Qmin, GenericMinMax.gmin.
  destruct (Qle_bool a b) eqn:E.
  - apply Qle_bool_iff in E. destruct (Qcompare a b) eqn:C; try reflexivity.
    exfalso. apply Qgt_alt in C. apply (Qlt_not_le b a C E).
  - destruct (Qcompare a b) eqn:C; try reflexivity; exfalso.
    + apply Qeq_alt in C. assert (a <= b)%Q by (rewrite C; apply Qle_refl).
      apply Qle_bool_iff in H. congruence.
    + apply Qlt_alt in C. apply Qlt_le_weak, Qle_bool_iff in C. congruence.
Qed.

Ltac solve_not_recognized :=
  let c := fresh "c" in let Hc := fresh "Hc" in let Hs := fresh "Hs" in
  let sg := fresh "sig" in let Hsig := fresh "Hsig" in let Hi := fresh "Hi" in
  intros [(c & Hc & Hs) | (sg & Hsig & Hi)];
  [ simpl in Hc; repeat destruct Hc as [<- | Hc]; try contradiction; discriminate
  | simpl in Hsig; repeat destruct Hsig as [<- | Hsig]; try contradiction;
    vm_compute in Hi; discriminate ].

Lemma isRetryableError_unrecognized (e : Thrown) (status : option Z) (message : string) :
  inspectError e = Some (status, message) -> ~ recognized status message ->
  isRetryableError e = false.
Proof.
  intros Hi Hn. unfold isRetryableError. rewrite Hi.
  apply Bool.not_true_is_false. intros B. apply Hn.
  rewrite !orb_true_iff in B.
  unfold recognized.
  repeat match goal with H : _ \/ _ |- _ => destruct H as [H|H] end;
  first
    [ left; unfold status_is in B; destruct status as [v|]; [|discriminate];
      apply Z.eqb_eq in B; subst; eexists; split; [|reflexivity]; simpl; tauto
    | right; eexists; split; [|exact B]; simpl; tauto ].
Qed.

Lemma retryOperation_from_all_fail {A} (operation : nat -> Result A) :
  (forall k, exists e, operation k = Throw e) ->
  forall retries k delay, exists e, fst (retryOperation_from operation k retries delay) = Throw e.
Proof.
  intros Hall retries. induction retries as [|r IH]; intros k delay;
    destruct (Hall k) as [e He]; cbn [retryOperation_from]; rewrite He.
  - exists e. reflexivity.
  - destruct (isRetryableError e); [|exists e; reflexivity].
    destruct (IH (S k) (delay * 2)%Z) as [e' He'].
    destruct (retryOperation_from operation (S k) r (delay * 2)) as [res ev].
    exists e'. exact He'.
Qed.

Lemma updateAssetInHistory_id_batch (h : History) (x aid : string) (u : AssetUpdate)
    (b : Batch.t) :
  u_id u = None -> findBatchOf h x = Some b ->
  exists b', findBatchOf (updateAssetInHistory (Batch.id b) aid u h) x = Some b' /\
             Batch.id b' = Batch.id b.
Proof.
  intros Hu Hb. pose proof (findBatchOf_update h (Batch.id b) aid x u Hu) as E.
  rewrite Hb in E. destruct (findBatchOf (updateAssetInHistory (Batch.id b) aid u h) x) as [b'|];
    [|discriminate]. injection E as E. eauto.
Qed.

(** * Claims *)

(** C1: when [handleGenerate] passes validation it first (before any
    generation call is dispatched or settles) prepends a new batch to the
    history whose assets are one placeholder per task: 4 in try-on mode and
    3 in scene mode, each with [isImageLoading = true] and no [imageUrl]. *)
Theorem handleGenerate_creates_placeholders (s : AppState) (now : Z) (gen : GenService) :
  productImages s <> [] ->
  (activeMode s = TryOn -> referenceImages s <> [] /\ modelImage s <> None) ->
  exists batch ev,
    snd (handleGenerate s now gen) = BatchCreated (batch :: history s) :: ev /\
    Batch.mode batch = activeMode s /\
    length (Batch.assets batch) =
      length (generationTasks (activeMode s) (Batch.id batch) (scenePrompt s)) /\
    length (Batch.assets batch) = (match activeMode s with TryOn => 4 | Scene => 3 end)%nat /\
    Forall (fun a => Asset.isImageLoading a = true /\ Asset.imageUrl a = None)
      (Batch.assets batch) /\
    Forall (fun e => match e with BatchCreated _ => False | _ => True end) ev.
Proof.
  intros Hp Ht.
  pose proof (generateInputsValid_intro s Hp Ht) as Hv.
  unfold handleGenerate, startGeneration. rewrite Hv.
  set (bid := Number_toString now).
  set (tasks := generationTasks (activeMode s) bid (scenePrompt s)).
  set (b := Batch.mk bid now (activeMode s) (map (placeholder (aspectRatio s)) tasks)).
  pose proof (runTasks_no_batch_event s bid gen tasks 0 (b :: history s)) as Hno.
  destruct (runTasks s bid gen 0 tasks (b :: history s)) as [h1 ev] eqn:E.
  exists b, ev. simpl in Hno. cbn [Batch.assets Batch.mode Batch.id b].
  repeat split; try assumption.
  - apply length_map.
  - rewrite length_map. unfold tasks. destruct (activeMode s); reflexivity.
  - apply Forall_forall. intros a Ha. apply in_map_iff in Ha.
    destruct Ha as (t & <- & _). split; reflexivity.
Qed.

(** C1, witness: the scenario of the specification, a try-on batch with
    one product, one reference and one model image. *)
Lemma handleGenerate_creates_placeholders_witness :
  exists batch ev,
    snd (handleGenerate
           (mkState TryOn [mkFile "p" "P"] [mkFile "r" "R"] (Some (mkFile "m" "M")) "项链" ""
              "sp" (mkDimensions "" "" "mm") AR_3_4 [] false) 1760000000000
           (fun _ _ => Ok "img")) = BatchCreated [batch] :: ev /\
    Batch.mode batch = TryOn /\
    length (Batch.assets batch) = length (generationTasks TryOn (Batch.id batch) "sp") /\
    length (Batch.assets batch) = 4%nat /\
    Forall (fun a => Asset.isImageLoading a = true /\ Asset.imageUrl a = None)
      (Batch.assets batch) /\
    Forall (fun e => match e with BatchCreated _ => False | _ => True end) ev.
Proof.
  apply (handleGenerate_creates_placeholders
           (mkState TryOn [mkFile "p" "P"] [mkFile "r" "R"] (Some (mkFile "m" "M")) "项链" ""
              "sp" (mkDimensions "" "" "mm") AR_3_4 [] false) 1760000000000
           (fun _ _ => Ok "img")).
  - simpl. discriminate.
  - intros _. simpl. split; discriminate.
Defined.

(** C2: [updateAssetInHistory batchId assetId updates] keeps the batches
    in number and order, leaves every batch whose id is not [batchId]
    unchanged, keeps the id, timestamp, mode and the number and order of
    the assets of a matching batch, leaves its assets whose id is not
    [assetId] unchanged, and turns the targeted asset into
    [{...asset, ...updates}], in which every field the update does not
    name keeps its value. *)
Theorem updateAssetInHistory_isolation (h : History) (batchId assetId : string)
    (updates : AssetUpdate) :
  length (updateAssetInHistory batchId assetId updates h) = length h /\
  AssetsTransformed h (updateAssetInHistory batchId assetId updates h) batchId assetId
    (fun a a' => a' = apply_update updates a /\ unnamed_fields_preserved updates a a').
Proof.
  split.
  - apply length_map.
  - eapply AssetsTransformed_impl; [|apply updateAssetInHistory_transforms].
    intros a a' ->. split; [reflexivity|apply apply_update_unnamed].
Qed.

(** C3: an operation that fails three times with a retryable error and
    then succeeds, run by [retryOperation] with [retries = 5] and delay
    [D], is called exactly 4 times, with sleeps of [D], [2D], [4D] in this
    order between the calls (7D in total), and its result is returned. *)
Theorem retryOperation_three_failures {A} (operation : nat -> Result A) (D : Z)
    (e0 e1 e2 : Thrown) (v : A) :
  operation 0%nat = Throw e0 -> operation 1%nat = Throw e1 ->
  operation 2%nat = Throw e2 -> operation 3%nat = Ok v ->
  isRetryableError e0 = true -> isRetryableError e1 = true -> isRetryableError e2 = true ->
  retryOperation operation 5 D =
    (Ok v, [Attempt 0; Sleep D; Attempt 1; Sleep (2 * D); Attempt 2; Sleep (4 * D); Attempt 3]) /\
  total_sleep (snd (retryOperation operation 5 D)) = (7 * D)%Z.
Proof.
  intros H0 H1 H2 H3 R0 R1 R2.
  assert (E : retryOperation operation 5 D =
    (Ok v, [Attempt 0; Sleep D; Attempt 1; Sleep (2 * D); Attempt 2; Sleep (4 * D); Attempt 3])).
  { unfold retryOperation. simpl.
    rewrite H0, R0, H1, R1, H2, R2, H3.
    replace (D * 2)%Z with (2 * D)%Z by lia.
    replace (2 * D * 2)%Z with (4 * D)%Z by lia. reflexivity. }
  split; [exact E|]. rewrite E. cbn [total_sleep snd]. lia.
Qed.

(** C3, witness: a mock failing with status 503 three times, then
    returning 42, with [D = 4000]. *)
Lemma retryOperation_three_failures_witness :
  retryOperation (fun k => if Nat.ltb k 3 then Throw (ThrownObject (Some 503%Z) None
                             (Some "Service Unavailable") "Error" "{}") else Ok 42%nat) 5 4000 =
    (Ok 42%nat, [Attempt 0; Sleep 4000; Attempt 1; Sleep (2 * 4000); Attempt 2;
                 Sleep (4 * 4000); Attempt 3]) /\
  total_sleep (snd (retryOperation (fun k => if Nat.ltb k 3 then Throw (ThrownObject (Some 503%Z)
                 None (Some "Service Unavailable") "Error" "{}") else Ok 42%nat) 5 4000)) =
    (7 * 4000)%Z.
Proof.
  apply (retryOperation_three_failures _ 4000
           (ThrownObject (Some 503%Z) None (Some "Service Unavailable") "Error" "{}")
           (ThrownObject (Some 503%Z) None (Some "Service Unavailable") "Error" "{}")
           (ThrownObject (Some 503%Z) None (Some "Service Unavailable") "Error" "{}") 42%nat);
    reflexivity.
Defined.

(** C4, counterexample: an error object with no status and a message
    that matches no transient signature (the unsupported-region error) is
    classified as not retryable and rethrown after the first call, with
    no sleep, although 5 retries remain. *)
Lemma retryOperation_unrecognized_counterexample :
  let e := ThrownObject None None (Some "User location is not supported for the API use.")
             "Error: User location is not supported for the API use." "{}" in
  ~ recognized None "User location is not supported for the API use." /\
  isRetryableError e = false /\
  retryOperation (fun _ => @Throw nat e) 5 4000 = (Throw e, [Attempt 0]).
Proof.
  cbv zeta. split; [|split; vm_compute; reflexivity].
  intros [(c & Hc & Hs) | (sig & Hsig & Hi)]; [discriminate|].
  simpl in Hsig.
  repeat destruct Hsig as [<- | Hsig]; try contradiction; vm_compute in Hi; discriminate.
Qed.

(** C4, as the code has it: an error whose properties can be read and
    that carries no retryable status (503, 500, 429) and no transient
    message signature is classified as not retryable and rethrown
    unchanged after the first call, with no sleep, whatever the number of
    retries left; only when reading the error's properties itself throws
    (a thrown [null]) is the error taken as retryable, and then, with
    retries left, the operation is called again after sleeping [delay],
    with one retry less and the delay doubled. *)
Theorem retryOperation_classification {A} (operation : nat -> Result A) (retries : nat)
    (delay : Z) (e : Thrown) :
  operation 0%nat = Throw e ->
  (forall status message, inspectError e = Some (status, message) ->
     ~ recognized status message ->
     retryOperation operation retries delay = (Throw e, [Attempt 0])) /\
  (inspectError e = None -> forall r, retries = S r ->
     retryOperation operation retries delay =
       (fst (retryOperation_from operation 1 r (delay * 2)),
        Attempt 0 :: Sleep delay :: snd (retryOperation_from operation 1 r (delay * 2)))).
Proof.
  intros H0. split.
  - intros status message Hi Hn.
    pose proof (isRetryableError_unrecognized e status message Hi Hn) as Hf.
    unfold retryOperation. destruct retries as [|r]; cbn [retryOperation_from]; rewrite H0;
      [reflexivity|]. rewrite Hf. reflexivity.
  - intros Hi r ->. assert (Ht : isRetryableError e = true)
      by (unfold isRetryableError; rewrite Hi; reflexivity).
    unfold retryOperation. cbn [retryOperation_from]. rewrite H0, Ht.
    destruct (retryOperation_from operation 1 r (delay * 2)); reflexivity.
Qed.

(** C4, witness: an [INVALID_ARGUMENT] error is rethrown at once. *)
Lemma retryOperation_classification_witness :
  retryOperation (fun _ => @Throw nat (ThrownObject (Some 400%Z) None
                    (Some "INVALID_ARGUMENT") "Error: INVALID_ARGUMENT" "{}")) 5 4000 =
    (Throw (ThrownObject (Some 400%Z) None (Some "INVALID_ARGUMENT")
              "Error: INVALID_ARGUMENT" "{}"), [Attempt 0]).
Proof.
  apply (proj1 (retryOperation_classification
                  (fun _ => @Throw nat (ThrownObject (Some 400%Z) None
                              (Some "INVALID_ARGUMENT") "Error: INVALID_ARGUMENT" "{}")) 5 4000
                  (ThrownObject (Some 400%Z) None (Some "INVALID_ARGUMENT")
                     "Error: INVALID_ARGUMENT" "{}") eq_refl) (Some 400%Z) "INVALID_ARGUMENT").
  - reflexivity.
  - solve_not_recognized.
Defined.

(** C5, counterexample: clearing the verification of an asset that holds
    a feedback draft makes no service call but leaves [feedbackDraft] in
    place. *)
Lemma handleVerifyIntent_clear_keeps_draft :
  let a := Asset.mk "1-0" (Some "data:image/png;base64,AAAA") "细节特写" false None AR_3_4
             Res2K (Some "make it gold") (Some false) (Some "确认您的需求：make it gold")
             (Some ["data:image/png;base64,BBBB"]) None in
  let h := [Batch.mk "1" 1 TryOn [a]] in
  snd (handleVerifyIntent h "1-0" "" [] None (fun _ _ => Ok (Some "ok"))) = 0%nat /\
  map Asset.feedbackDraft
    (flat_map Batch.assets (fst (handleVerifyIntent h "1-0" "" [] None (fun _ _ => Ok (Some "ok")))))
    = [Some "make it gold"].
Proof. vm_compute. split; reflexivity. Qed.

(** C5, as the code has it: for an asset present in the history, the
    verification call with empty feedback, no reference image and no
    region calls no interpretation service, sets [isVerifyingFeedback] to
    false and clears [feedbackInterpretation], [feedbackReferenceImages]
    and [feedbackRegion] of that asset, leaves its [feedbackDraft] and all
    its other fields (and every other asset and batch) unchanged, and a
    second such call gives the same history. *)
Theorem handleVerifyIntent_clear (h : History) (assetId : string) (api : InterpretService)
    (batch : Batch.t) :
  findBatchOf h assetId = Some batch ->
  snd (handleVerifyIntent h assetId "" [] None api) = 0%nat /\
  AssetsTransformed h (fst (handleVerifyIntent h assetId "" [] None api)) (Batch.id batch) assetId
    (fun a a' => Asset.isVerifyingFeedback a' = Some false /\
                 Asset.feedbackInterpretation a' = None /\
                 Asset.feedbackReferenceImages a' = None /\
                 Asset.feedbackRegion a' = None /\
                 Asset.feedbackDraft a' = Asset.feedbackDraft a /\
                 unnamed_fields_preserved upd_verify_clear a a') /\
  handleVerifyIntent (fst (handleVerifyIntent h assetId "" [] None api)) assetId "" [] None api =
    (fst (handleVerifyIntent h assetId "" [] None api), 0%nat).
Proof.
  intros Hb.
  assert (E : handleVerifyIntent h assetId "" [] None api =
              (updateAssetInHistory (Batch.id batch) assetId upd_verify_clear h, 0%nat)).
  { unfold handleVerifyIntent. rewrite Hb. reflexivity. }
  rewrite E. cbn [fst snd]. split; [reflexivity|split].
  - eapply AssetsTransformed_impl; [|apply updateAssetInHistory_transforms].
    intros a a' ->.
    refine (conj eq_refl (conj eq_refl (conj eq_refl (conj eq_refl (conj eq_refl _))))).
    apply apply_update_unnamed.
  - destruct (updateAssetInHistory_id_batch h assetId assetId upd_verify_clear batch eq_refl Hb)
      as (b' & Hb' & Hid).
    unfold handleVerifyIntent. rewrite Hb'. cbn. rewrite Hid.
    rewrite updateAssetInHistory_idem by reflexivity. reflexivity.
Qed.

(** C5, witness: the asset of the counterexample above. *)
Lemma handleVerifyIntent_clear_witness :
  let a := Asset.mk "1-0" (Some "data:image/png;base64,AAAA") "细节特写" false None AR_3_4
             Res2K (Some "make it gold") (Some false) (Some "确认您的需求：make it gold")
             (Some ["data:image/png;base64,BBBB"]) None in
  let h := [Batch.mk "1" 1 TryOn [a]] in
  snd (handleVerifyIntent h "1-0" "" [] None (fun _ _ => Ok (Some "ok"))) = 0%nat.
Proof.
  cbv zeta.
  apply (handleVerifyIntent_clear _ "1-0" (fun _ _ => Ok (Some "ok"))
           (Batch.mk "1" 1 TryOn
              [Asset.mk "1-0" (Some "data:image/png;base64,AAAA") "细节特写" false None AR_3_4
                 Res2K (Some "make it gold") (Some false) (Some "确认您的需求：make it gold")
                 (Some ["data:image/png;base64,BBBB"]) None])).
  reflexivity.
Defined.

(** C6: for an asset present in the history, [handleRegenerate] first
    sets the asset's [isImageLoading] to true and clears its [error] and
    [feedbackInterpretation]; when the generation call succeeds with
    [url], it then sets [imageUrl] to [url], [isImageLoading] to false and
    clears [feedbackReferenceImages] and [feedbackRegion]. *)
Theorem handleRegenerate_lifecycle (s : AppState) (assetId feedback : string)
    (gen : GenService) (batch : Batch.t) (asset : Asset.t) :
  findBatchOf (history s) assetId = Some batch ->
  findAsset batch assetId = Some asset ->
  AssetsTransformed (history s) (fst (handleRegenerate s assetId feedback gen))
    (Batch.id batch) assetId
    (fun a a' => Asset.isImageLoading a' = true /\ Asset.error a' = None /\
                 Asset.feedbackInterpretation a' = None) /\
  (forall url, regenerateCall s batch asset feedback gen = Ok url ->
     AssetsTransformed (fst (handleRegenerate s assetId feedback gen))
       (snd (handleRegenerate s assetId feedback gen)) (Batch.id batch) assetId
       (fun a a' => Asset.imageUrl a' = Some url /\ Asset.isImageLoading a' = false /\
                    Asset.feedbackReferenceImages a' = None /\ Asset.feedbackRegion a' = None)).
Proof.
  intros Hb Ha. unfold handleRegenerate. rewrite Hb, Ha. cbn [fst snd]. split.
  - eapply AssetsTransformed_impl; [|apply updateAssetInHistory_transforms].
    intros a a' ->. repeat split.
  - intros url Hr. rewrite Hr.
    eapply AssetsTransformed_impl; [|apply updateAssetInHistory_transforms].
    intros a a' ->. repeat split.
Qed.

(** C6, witness: a succeeded scene asset regenerated with feedback
    "make it gold not silver" and a service returning a new image. *)
Lemma handleRegenerate_lifecycle_witness :
  AssetsTransformed
    (fst (handleRegenerate
            (mkState Scene [mkFile "p" "P"] [] None "戒指" "" "sp" (mkDimensions "" "" "mm")
               AR_3_4 [Batch.mk "1" 1 Scene
                         [Asset.mk "1-0" (Some "old") "场景展示 1" false None AR_3_4 Res2K None
                            None (Some "确认您的需求：make it gold not silver") None None]] false)
            "1-0" "make it gold not silver" (fun _ _ => Ok "new")))
    (snd (handleRegenerate
            (mkState Scene [mkFile "p" "P"] [] None "戒指" "" "sp" (mkDimensions "" "" "mm")
               AR_3_4 [Batch.mk "1" 1 Scene
                         [Asset.mk "1-0" (Some "old") "场景展示 1" false None AR_3_4 Res2K None
                            None (Some "确认您的需求：make it gold not silver") None None]] false)
            "1-0" "make it gold not silver" (fun _ _ => Ok "new")))
    "1" "1-0"
    (fun a a' => Asset.imageUrl a' = Some "new" /\ Asset.isImageLoading a' = false /\
                 Asset.feedbackReferenceImages a' = None /\ Asset.feedbackRegion a' = None).
Proof.
  refine (proj2 (handleRegenerate_lifecycle
           (mkState Scene [mkFile "p" "P"] [] None "戒指" "" "sp" (mkDimensions "" "" "mm")
              AR_3_4 [Batch.mk "1" 1 Scene
                        [Asset.mk "1-0" (Some "old") "场景展示 1" false None AR_3_4 Res2K None
                           None (Some "确认您的需求：make it gold not silver") None None]] false)
           "1-0" "make it gold not silver" (fun _ _ => Ok "new")
           (Batch.mk "1" 1 Scene
              [Asset.mk "1-0" (Some "old") "场景展示 1" false None AR_3_4 Res2K None None
                 (Some "确认您的需求：make it gold not silver") None None])
           (Asset.mk "1-0" (Some "old") "场景展示 1" false None AR_3_4 Res2K None None
              (Some "确认您的需求：make it gold not silver") None None) _ _) "new" _);
    reflexivity.
Defined.

(** C7: [verifyFeedbackIntent] always resolves to a string and never
    rejects: when the retried interpretation call fails, or when every
    call to the interpretation service fails, it resolves to the fallback
    ["确认您的需求：" ++ feedback]. *)
Theorem verifyFeedbackIntent_never_throws (originalPrompt feedback : string)
    (currentImage : option string) (files : list string) (region : option Region)
    (api : InterpretService) :
  (exists v, verifyFeedbackIntent originalPrompt feedback currentImage files region api = Ok v) /\
  (forall e, fst (retryOperation (verifyOperation api (mkVerifyRequest originalPrompt feedback
                                    currentImage files region)) 2 1000) = Throw e ->
     verifyFeedbackIntent originalPrompt feedback currentImage files region api =
       Ok ("确认您的需求：" ++ feedback)) /\
  ((forall k, exists e, api k (mkVerifyRequest originalPrompt feedback currentImage files region)
                         = Throw e) ->
     verifyFeedbackIntent originalPrompt feedback currentImage files region api =
       Ok ("确认您的需求：" ++ feedback)).
Proof.
  assert (Hfail : forall e, fst (retryOperation (verifyOperation api (mkVerifyRequest
                    originalPrompt feedback currentImage files region)) 2 1000) = Throw e ->
            verifyFeedbackIntent originalPrompt feedback currentImage files region api =
              Ok ("确认您的需求：" ++ feedback)).
  { intros e He. unfold verifyFeedbackIntent. rewrite He. reflexivity. }
  split; [|split; [exact Hfail|]].
  - unfold verifyFeedbackIntent.
    destruct (fst (retryOperation _ 2 1000)) as [v|e]; eexists; reflexivity.
  - intros Hall.
    assert (Hop : forall k, exists e, verifyOperation api (mkVerifyRequest originalPrompt
                    feedback currentImage files region) k = Throw e).
    { intros k. destruct (Hall k) as [e He]. exists e. unfold verifyOperation. rewrite He.
      reflexivity. }
    destruct (retryOperation_from_all_fail _ Hop 2 0 1000) as [e He].
    exact (Hfail e He).
Qed.

(** C7, witness: a service that always throws [null]. *)
Lemma verifyFeedbackIntent_never_throws_witness :
  verifyFeedbackIntent "细节特写" "make it gold" None [] None (fun _ _ => Throw ThrownNull) =
    Ok ("确认您的需求：" ++ "make it gold").
Proof.
  apply (proj2 (proj2 (verifyFeedbackIntent_never_throws "细节特写" "make it gold" None [] None
                         (fun _ _ => Throw ThrownNull)))).
  intros k. exists ThrownNull. reflexivity.
Defined.

(** C8: once [handleGenerate] has created its batch, its generation calls
    run one after the other: the call for task [i] is dispatched and
    settles (success or failure) before the call for task [i+1] is
    dispatched, and every task is dispatched whatever the outcomes of the
    earlier ones. *)
Theorem handleGenerate_sequential_dispatch (s : AppState) (now : Z) (gen : GenService) :
  productImages s <> [] ->
  (activeMode s = TryOn -> referenceImages s <> [] /\ modelImage s <> None) ->
  exists h0 ev,
    snd (handleGenerate s now gen) = BatchCreated h0 :: ev /\
    let tasks := generationTasks (activeMode s) (Number_toString now) (scenePrompt s) in
    length ev = (2 * length tasks)%nat /\
    forall i t, nth_error tasks i = Some t ->
      nth_error ev (2 * i)%nat = Some (Dispatch (task_id t)) /\
      nth_error ev (2 * i + 1)%nat = Some (Settled (task_id t) (gen i (taskRequest s t))).
Proof.
  intros Hp Ht.
  pose proof (generateInputsValid_intro s Hp Ht) as Hv.
  unfold handleGenerate, startGeneration. rewrite Hv.
  set (bid := Number_toString now).
  set (tasks := generationTasks (activeMode s) bid (scenePrompt s)).
  set (h0 := Batch.mk bid now (activeMode s) (map (placeholder (aspectRatio s)) tasks)
               :: history s).
  pose proof (runTasks_trace s bid gen tasks 0 h0) as Htr. cbv zeta in Htr.
  destruct (runTasks s bid gen 0 tasks h0) as [h1 ev] eqn:E.
  exists h0, ev. split; [reflexivity|]. cbv zeta. simpl in Htr.
  destruct Htr as [Hlen Hnth]. split; [exact Hlen|].
  intros i t Hi. exact (Hnth i t Hi).
Qed.

(** C8, witness: a try-on batch whose second call fails. *)
Lemma handleGenerate_sequential_dispatch_witness :
  exists h0 ev,
    snd (handleGenerate
           (mkState TryOn [mkFile "p" "P"] [mkFile "r" "R"] (Some (mkFile "m" "M")) "项链" ""
              "sp" (mkDimensions "" "" "mm") AR_3_4 [] false) 17
           (fun n _ => if Nat.eqb n 1 then Throw (ThrownObject (Some 500%Z) None
                         (Some "Internal Server Error") "Error" "{}") else Ok "img")) =
      BatchCreated h0 :: ev /\
    let tasks := generationTasks TryOn (Number_toString 17) "sp" in
    length ev = (2 * length tasks)%nat /\
    forall i t, nth_error tasks i = Some t ->
      nth_error ev (2 * i)%nat = Some (Dispatch (task_id t)) /\
      nth_error ev (2 * i + 1)%nat =
        Some (Settled (task_id t)
          ((fun n _ => if Nat.eqb n 1 then Throw (ThrownObject (Some 500%Z) None
                         (Some "Internal Server Error") "Error" "{}") else Ok "img") i
           (taskRequest (mkState TryOn [mkFile "p" "P"] [mkFile "r" "R"] (Some (mkFile "m" "M"))
              "项链" "" "sp" (mkDimensions "" "" "mm") AR_3_4 [] false) t))).
Proof.
  apply (handleGenerate_sequential_dispatch
           (mkState TryOn [mkFile "p" "P"] [mkFile "r" "R"] (Some (mkFile "m" "M")) "项链" ""
              "sp" (mkDimensions "" "" "mm") AR_3_4 [] false) 17
           (fun n _ => if Nat.eqb n 1 then Throw (ThrownObject (Some 500%Z) None
                         (Some "Internal Server Error") "Error" "{}") else Ok "img")).
  - simpl. discriminate.
  - intros _. simpl. split; discriminate.
Defined.

(** C9: pressing the pointer at one point and dragging to another in
    selection mode yields the rectangle with [x = min(x1,x2)],
    [y = min(y1,y2)], [width = |x1-x2|], [height = |y1-y2|] of the two
    points in percentage coordinates, whatever corner the drag starts
    from; so width and height are non-negative. *)
Theorem region_selection_normalized (rect : DOMRect) (st : SelectorState)
    (c1x c1y c2x c2y : Q) :
  isSelecting st = true ->
  let x1 := fst (toPercent rect c1x c1y) in let y1 := snd (toPercent rect c1x c1y) in
  let x2 := fst (toPercent rect c2x c2y) in let y2 := snd (toPercent rect c2x c2y) in
  exists r,
    selection (handleMouseMove (Some rect) c2x c2y (handleMouseDown (Some rect) c1x c1y st))
      = Some r /\
    (rx r == Qmin x1 x2)%Q /\ (ry r == Qmin y1 y2)%Q /\
    (rwidth r == Qabs (x1 - x2))%Q /\ (rheight r == Qabs (y1 - y2))%Q /\
    (0 <= rwidth r)%Q /\ (0 <= rheight r)%Q.
Proof.
  intros Hs. cbv zeta.
  unfold handleMouseDown. rewrite Hs. cbn [negb].
  destruct (toPercent rect c1x c1y) as [x1 y1] eqn:E1.
  unfold handleMouseMove. cbn [isDragging negb isSelecting startPos fst snd].
  destruct (toPercent rect c2x c2y) as [x2 y2] eqn:E2. cbn [fst snd].
  eexists. split; [reflexivity|]. cbn [rx ry rwidth rheight].
  rewrite !Math_min_Qmin.
  split; [apply Q.min_comm|]. split; [apply Q.min_comm|].
  split; [rewrite Qabs_Qminus; apply Qeq_refl|].
  split; [rewrite Qabs_Qminus; apply Qeq_refl|].
  split; apply Qabs_nonneg.
Qed.

(** C9, witness: a drag from the bottom-right corner (80%, 60%) to the
    top-left corner (20%, 10%) of a 200 x 100 image. *)
Lemma region_selection_normalized_witness :
  exists r,
    selection (handleMouseMove (Some (mkRect 0 0 200 100)) 40 10
                 (handleMouseDown (Some (mkRect 0 0 200 100)) 160 60
                    (mkSelector true false (0, 0)%Q None))) = Some r /\
    (rx r == Qmin (fst (toPercent (mkRect 0 0 200 100) 160 60)) (fst (toPercent (mkRect 0 0 200 100) 40 10)))%Q /\
    (ry r == Qmin (snd (toPercent (mkRect 0 0 200 100) 160 60)) (snd (toPercent (mkRect 0 0 200 100) 40 10)))%Q /\
    (rwidth r == Qabs (fst (toPercent (mkRect 0 0 200 100) 160 60) - fst (toPercent (mkRect 0 0 200 100) 40 10)))%Q /\
    (rheight r == Qabs (snd (toPercent (mkRect 0 0 200 100) 160 60) - snd (toPercent (mkRect 0 0 200 100) 40 10)))%Q /\
    (0 <= rwidth r)%Q /\ (0 <= rheight r)%Q.
Proof.
  apply (region_selection_normalized (mkRect 0 0 200 100) (mkSelector true false (0, 0)%Q None)
           160 60 40 10).
  reflexivity.
Defined.

(** C10: when the generation call of [handleRegenerate] fails, the
    targeted asset keeps the [imageUrl] it had before the regeneration;
    it ends with [isImageLoading = false] and [error = "重绘失败"]. *)
Theorem handleRegenerate_failure_keeps_image (s : AppState) (assetId feedback : string)
    (gen : GenService) (batch : Batch.t) (asset : Asset.t) (e : Thrown) :
  findBatchOf (history s) assetId = Some batch ->
  findAsset batch assetId = Some asset ->
  regenerateCall s batch asset feedback gen = Throw e ->
  AssetsTransformed (history s) (snd (handleRegenerate s assetId feedback gen))
    (Batch.id batch) assetId
    (fun a a' => Asset.imageUrl a' = Asset.imageUrl a /\ Asset.isImageLoading a' = false /\
                 Asset.error a' = Some "重绘失败").
Proof.
  intros Hb Ha Hr. unfold handleRegenerate. rewrite Hb, Ha, Hr. cbn [snd].
  eapply AssetsTransformed_impl;
    [|eapply AssetsTransformed_compose;
       [|apply updateAssetInHistory_transforms|apply updateAssetInHistory_transforms]].
  - intros a a2 (a1 & -> & ->). repeat split.
  - intros a a' ->. reflexivity.
Qed.

(** C10, witness: a try-on asset whose original inputs were removed, so
    the regeneration throws before any call. *)
Lemma handleRegenerate_failure_keeps_image_witness :
  AssetsTransformed
    [Batch.mk "1" 1 TryOn [Asset.mk "1-0" (Some "old") "细节特写" false None AR_3_4 Res2K
                             None None None None None]]
    (snd (handleRegenerate
            (mkState TryOn [mkFile "p" "P"] [] None "项链" "" "sp" (mkDimensions "" "" "mm")
               AR_3_4 [Batch.mk "1" 1 TryOn [Asset.mk "1-0" (Some "old") "细节特写" false None
                                               AR_3_4 Res2K None None None None None]] false)
            "1-0" "gold" (fun _ _ => Ok "new")))
    "1" "1-0"
    (fun a a' => Asset.imageUrl a' = Asset.imageUrl a /\ Asset.isImageLoading a' = false /\
                 Asset.error a' = Some "重绘失败").
Proof.
  apply (handleRegenerate_failure_keeps_image
           (mkState TryOn [mkFile "p" "P"] [] None "项链" "" "sp" (mkDimensions "" "" "mm")
              AR_3_4 [Batch.mk "1" 1 TryOn [Asset.mk "1-0" (Some "old") "细节特写" false None
                                              AR_3_4 Res2K None None None None None]] false)
           "1-0" "gold" (fun _ _ => Ok "new")
           (Batch.mk "1" 1 TryOn [Asset.mk "1-0" (Some "old") "细节特写" false None AR_3_4 Res2K
                                    None None None None None])
           (Asset.mk "1-0" (Some "old") "细节特写" false None AR_3_4 Res2K None None None None None)
           (ThrownObject None None (Some "缺少原图信息") "Error: 缺少原图信息" "{}"));
    reflexivity.
Defined.

(** * Further properties *)

(** ** Auxiliary lemmas *)

Lemma retryOperation_from_shape {A} (operation : nat -> Result A) :
  forall retries k delay, exists m, (m <= retries)%nat /\
    retryOperation_from operation k retries delay =
    (operation (k + m)%nat, backoffTrace k delay m).
Proof.
  induction retries as [|r IH]; intros k delay; cbn [retryOperation_from];
    destruct (operation k) as [v|e] eqn:E.
  - exists 0%nat. rewrite Nat.add_0_r, E. auto.
  - exists 0%nat. rewrite Nat.add_0_r, E. auto.
  - exists 0%nat. rewrite Nat.add_0_r, E. split; [lia|reflexivity].
  - destruct (isRetryableError e).
    + destruct (IH (S k) (delay * 2)%Z) as (m & Hm & Hr). rewrite Hr.
      exists (S m). rewrite Nat.add_succ_r. split; [lia|reflexivity].
    + exists 0%nat. rewrite Nat.add_0_r, E. split; [lia|reflexivity].
Qed.

Lemma total_sleep_backoffTrace (k : nat) (delay : Z) (m : nat) :
  total_sleep (backoffTrace k delay m) = (delay * (2 ^ Z.of_nat m - 1))%Z.
Proof.
  revert k delay. induction m as [|m IH]; intros k delay; cbn [backoffTrace total_sleep].
  - simpl. lia.
  - rewrite IH, Nat2Z.inj_succ, Z.pow_succ_r by lia. ring.
Qed.

Lemma retryOperation_from_exhausted {A} (operation : nat -> Result A) :
  forall retries k delay,
  (forall j, (k <= j <= k + retries)%nat ->
     exists e, operation j = Throw e /\ isRetryableError e = true) ->
  retryOperation_from operation k retries delay =
  (operation (k + retries)%nat, backoffTrace k delay retries).
Proof.
  induction retries as [|r IH]; intros k delay H; cbn [retryOperation_from];
    destruct (H k ltac:(lia)) as (e & He & Hr); rewrite He.
  - rewrite Nat.add_0_r, He. reflexivity.
  - rewrite Hr, IH by (intros j Hj; apply H; lia).
    rewrite Nat.add_succ_r. reflexivity.
Qed.

Lemma retry_result_from_operation {A} (operation : nat -> Result A) retries delay v :
  fst (retryOperation operation retries delay) = Ok v -> exists m, operation m = Ok v.
Proof.
  destruct (retryOperation_from_shape operation retries 0 delay) as (m & _ & E).
  unfold retryOperation. rewrite E. cbn [fst]. intros H. exists m. exact H.
Qed.

Lemma find_all_none (l : list ResponsePart) :
  Forall (fun p => inlineData p = None) l ->
  find (fun p => match inlineData p with Some _ => true | None => false end) l = None.
Proof. induction 1 as [|p l Hp _ IH]; simpl; [reflexivity|]. rewrite Hp. exact IH. Qed.

Lemma find_first_inline (pre post : list ResponsePart) (d : string) :
  Forall (fun p => inlineData p = None) pre ->
  find (fun p => match inlineData p with Some _ => true | None => false end)
       (pre ++ mkPart (Some d) :: post) = Some (mkPart (Some d)).
Proof. induction 1 as [|p l Hp _ IH]; simpl; [reflexivity|]. rewrite Hp. exact IH. Qed.

Lemma string_app_assoc (a b c : string) : (a ++ b) ++ c = a ++ (b ++ c).
Proof. induction a as [|x a IH]; simpl; [reflexivity|]. now rewrite IH. Qed.

Lemma string_app_nil_r (a : string) : a ++ "" = a.
Proof. induction a as [|x a IH]; simpl; [reflexivity|]. now rewrite IH. Qed.

Lemma js_split_go_skip (sep : ascii) (p s cur : string) :
  ~ In sep (list_ascii_of_string p) ->
  js_split_go sep (p ++ s) cur = js_split_go sep s (cur ++ p).
Proof.
  revert cur. induction p as [|c p IH]; intros cur Hn; simpl.
  - now rewrite string_app_nil_r.
  - simpl in Hn. destruct (Ascii.eqb_spec c sep) as [->|Hc]; [tauto|].
    rewrite IH by tauto. now rewrite string_app_assoc.
Qed.

Lemma find_map_update (l : list Asset.t) (aid : string) (u : AssetUpdate) :
  u_id u = None ->
  find (fun a => String.eqb (Asset.id a) aid)
    (map (fun asset => if String.eqb (Asset.id asset) aid then apply_update u asset else asset) l)
  = option_map (apply_update u) (find (fun a => String.eqb (Asset.id a) aid) l).
Proof.
  intros Hu. induction l as [|a l IH]; cbn [map find]; [reflexivity|].
  destruct (String.eqb (Asset.id a) aid) eqn:E; cbn [find].
  - rewrite apply_update_id, E by exact Hu. reflexivity.
  - rewrite E. exact IH.
Qed.

Lemma existsb_map_update (l : list Asset.t) (aid x : string) (u : AssetUpdate) :
  u_id u = None ->
  existsb (fun a => String.eqb (Asset.id a) x)
    (map (fun asset => if String.eqb (Asset.id asset) aid then apply_update u asset else asset) l)
  = existsb (fun a => String.eqb (Asset.id a) x) l.
Proof.
  intros Hu. induction l as [|a l IH]; cbn [map existsb]; [reflexivity|].
  destruct (String.eqb (Asset.id a) aid); rewrite ?apply_update_id by exact Hu;
    rewrite IH; reflexivity.
Qed.

Lemma findAsset_after_update (h : History) (aid : string) (u : AssetUpdate)
    (b : Batch.t) (a : Asset.t) :
  u_id u = None -> findBatchOf h aid = Some b -> findAsset b aid = Some a ->
  exists b', findBatchOf (updateAssetInHistory (Batch.id b) aid u h) aid = Some b' /\
             Batch.id b' = Batch.id b /\ findAsset b' aid = Some (apply_update u a).
Proof.
  intros Hu Hb Ha. unfold findBatchOf, updateAssetInHistory in *.
  induction h as [|b0 h IH]; simpl in *; [discriminate|].
  destruct (existsb (fun a => String.eqb (Asset.id a) aid) (Batch.assets b0)) eqn:E.
  - injection Hb as <-. rewrite String.eqb_refl. simpl.
    rewrite existsb_map_update, E by exact Hu.
    eexists. split; [reflexivity|]. split; [reflexivity|].
    unfold findAsset in *. simpl. rewrite find_map_update, Ha by exact Hu. reflexivity.
  - destruct (negb (String.eqb (Batch.id b0) (Batch.id b))); simpl;
      [rewrite E|rewrite existsb_map_update, E by exact Hu]; apply IH; exact Hb.
Qed.

Lemma findAsset_id (b : Batch.t) (aid : string) (a : Asset.t) :
  findAsset b aid = Some a -> Asset.id a = aid.
Proof.
  unfold findAsset. intros H. apply find_some in H. apply String.eqb_eq, H.
Qed.

Lemma string_app_cancel_l (p a b : string) : p ++ a = p ++ b -> a = b.
Proof. induction p as [|c p IH]; simpl; [auto|]. intros H. injection H. exact IH. Qed.

Lemma generationTasks_NoDup (mode : AppMode) (batchId scenePrompt : string) :
  NoDup (map task_id (generationTasks mode batchId scenePrompt)).
Proof.
  destruct mode; simpl;
    repeat (constructor; [simpl; intros H; repeat destruct H as [H|H];
                          try (apply string_app_cancel_l in H; discriminate); exact H|]);
    constructor.
Qed.

Lemma updateAssetInHistory_head (bid aid : string) (u : AssetUpdate) (ts : Z) (mode : AppMode)
    (assets : list Asset.t) (rest : History) :
  ~ In bid (map Batch.id rest) ->
  updateAssetInHistory bid aid u (Batch.mk bid ts mode assets :: rest) =
  Batch.mk bid ts mode
    (map (fun a => if String.eqb (Asset.id a) aid then apply_update u a else a) assets) :: rest.
Proof.
  intros Hn. unfold updateAssetInHistory. cbn [map]. cbn [Batch.id].
  rewrite String.eqb_refl. cbn [negb Batch.id Batch.timestamp Batch.mode Batch.assets].
  f_equal. induction rest as [|b rest IH]; [reflexivity|]. cbn [map].
  simpl in Hn. destruct (String.eqb_spec (Batch.id b) bid) as [E|E]; [tauto|].
  cbn [negb]. f_equal. apply IH. tauto.
Qed.

Lemma Forall2_map_l_inv {X Y} (R : X -> Y -> Prop) (f : X -> X) (l : list X) (l' : list Y) :
  Forall2 R (map f l) l' -> Forall2 (fun a a' => R (f a) a') l l'.
Proof.
  revert l'. induction l as [|x l IH]; intros l' H; inversion H; subst; constructor; auto.
Qed.

Lemma Forall2_nth_error {X Y} (R : X -> Y -> Prop) (l : list X) (l' : list Y) (i : nat) (x : X) :
  Forall2 R l l' -> nth_error l i = Some x -> exists y, nth_error l' i = Some y /\ R x y.
Proof.
  intros H. revert i. induction H as [|a b l l' Hab _ IH]; intros [|i] Hi; try discriminate.
  - injection Hi as <-. exists b. auto.
  - apply IH. exact Hi.
Qed.

Lemma runTasks_assets (s : AppState) (bid : string) (gen : GenService) :
  forall tasks n ts mode assets rest,
  ~ In bid (map Batch.id rest) ->
  NoDup (map task_id tasks) ->
  exists assets',
    fst (runTasks s bid gen n tasks (Batch.mk bid ts mode assets :: rest)) =
      Batch.mk bid ts mode assets' :: rest /\
    Forall2 (fun a a' =>
      (forall j t, nth_error tasks j = Some t -> task_id t = Asset.id a ->
         a' = apply_update (match gen (n + j)%nat (taskRequest s t) with
                            | Ok url => upd_generated url
                            | Throw e => upd_failed (generateErrorMsg e)
                            end) a) /\
      (~ In (Asset.id a) (map task_id tasks) -> a' = a)) assets assets'.
Proof.
  induction tasks as [|t0 ts' IH]; intros n ts mode assets rest Hn Hd.
  - exists assets. split; [reflexivity|].
    induction assets as [|a assets IHa]; constructor; [|exact IHa].
    split; [intros [|j] t Ht; discriminate|auto].
  - cbn [runTasks].
    set (u0 := match gen n (taskRequest s t0) with
               | Ok url => upd_generated url
               | Throw e => upd_failed (generateErrorMsg e)
               end).
    assert (Eh : (match gen n (taskRequest s t0) with
                  | Ok base64Image => updateAssetInHistory bid (task_id t0) (upd_generated base64Image)
                                        (Batch.mk bid ts mode assets :: rest)
                  | Throw error => updateAssetInHistory bid (task_id t0)
                                     (upd_failed (generateErrorMsg error))
                                     (Batch.mk bid ts mode assets :: rest)
                  end) = updateAssetInHistory bid (task_id t0) u0 (Batch.mk bid ts mode assets :: rest)).
    { unfold u0. destruct (gen n (taskRequest s t0)); reflexivity. }
    rewrite Eh, updateAssetInHistory_head by exact Hn.
    inversion Hd as [|x l Hx Hd']; subst.
    destruct (IH (S n) ts mode
                (map (fun a => if String.eqb (Asset.id a) (task_id t0)
                               then apply_update u0 a else a) assets)
                rest Hn Hd') as (assets' & Heq & HF).
    destruct (runTasks s bid gen (S n) ts' _) as [h2 ev] eqn:Er.
    cbn [fst] in Heq |- *. exists assets'. split; [exact Heq|].
    apply Forall2_map_l_inv in HF.
    eapply Forall2_impl; [|exact HF]. intros a a' [H1 H2].
    assert (Hu0 : u_id u0 = None) by (unfold u0; destruct (gen n _); reflexivity).
    destruct (String.eqb_spec (Asset.id a) (task_id t0)) as [E|E].
    + assert (Ha' : a' = apply_update u0 a).
      { apply H2. rewrite apply_update_id by exact Hu0. rewrite E. exact Hx. }
      split.
      * intros [|j] t Ht Hid.
        -- injection Ht as <-. rewrite Nat.add_0_r. exact Ha'.
        -- exfalso. apply Hx. rewrite <- E, <- Hid. apply in_map.
           apply nth_error_In with j. exact Ht.
      * intros Hni. exfalso. apply Hni. rewrite E. left. reflexivity.
    + split.
      * intros [|j] t Ht Hid.
        -- injection Ht as <-. congruence.
        -- rewrite (H1 j t Ht Hid). f_equal. rewrite Nat.add_succ_r. reflexivity.
      * intros Hni. apply H2. intros Hin. apply Hni. right. exact Hin.
Qed.

Lemma filter_combine_shift {A} (l : list A) (k index : nat) :
  (index < k)%nat ->
  map fst (filter (fun p => negb (Nat.eqb (snd p) index)) (combine l (seq k (length l)))) = l.
Proof.
  revert k. induction l as [|x l IH]; intros k Hk; simpl; [reflexivity|].
  destruct (Nat.eqb_spec k index); [lia|]. simpl. f_equal. apply IH. lia.
Qed.

Lemma filter_combine_splice {A} (l : list A) :
  forall k index,
  map fst (filter (fun p => negb (Nat.eqb (snd p) (k + index))) (combine l (seq k (length l)))) =
  splice1 l index.
Proof.
  induction l as [|x l IH]; intros k index; simpl; [destruct index; reflexivity|].
  destruct index as [|i].
  - rewrite Nat.add_0_r, Nat.eqb_refl. simpl. apply filter_combine_shift. lia.
  - destruct (Nat.eqb_spec k (k + S i)); [lia|]. simpl. f_equal.
    replace (k + S i)%nat with (S k + i)%nat by lia. apply IH.
Qed.

(** ** Properties of the code *)

(** [retryOperation] calls the operation at attempts [0 .. m] for some
    [m <= retries], sleeps [delay], [2 delay], ... between consecutive
    attempts, and returns the outcome of the last attempt. *)
Theorem retryOperation_shape {A} (operation : nat -> Result A) (retries : nat) (delay : Z) :
  exists m, (m <= retries)%nat /\
    retryOperation operation retries delay = (operation m, backoffTrace 0 delay m).
Proof. apply retryOperation_from_shape. Qed.

(** For a non-negative initial delay, the total time slept by
    [retryOperation] is at most [delay * (2^retries - 1)]. *)
Theorem retryOperation_sleep_bound {A} (operation : nat -> Result A) (retries : nat) (delay : Z) :
  (0 <= delay)%Z ->
  (total_sleep (snd (retryOperation operation retries delay)) <=
   delay * (2 ^ Z.of_nat retries - 1))%Z.
Proof.
  intros Hd. destruct (retryOperation_shape operation retries delay) as (m & Hm & ->).
  cbn [snd]. rewrite total_sleep_backoffTrace.
  apply Z.mul_le_mono_nonneg_l; [exact Hd|].
  assert (2 ^ Z.of_nat m <= 2 ^ Z.of_nat retries)%Z by (apply Z.pow_le_mono_r; lia).
  lia.
Qed.

Lemma retryOperation_sleep_bound_witness :
  (0 <= 4000)%Z /\
  (total_sleep (snd (retryOperation (fun _ : nat => @Throw string ThrownNull) 5 4000)) <=
   4000 * (2 ^ Z.of_nat 5 - 1))%Z.
Proof. split; [lia|]. apply retryOperation_sleep_bound. lia. Defined.

(** When every attempt throws a retryable error, [retryOperation] makes
    exactly [retries + 1] attempts and rethrows the error of the last one. *)
Theorem retryOperation_exhausted {A} (operation : nat -> Result A) (retries : nat) (delay : Z) :
  (forall k, (k <= retries)%nat ->
     exists e, operation k = Throw e /\ isRetryableError e = true) ->
  retryOperation operation retries delay =
  (operation retries, backoffTrace 0 delay retries).
Proof.
  intros H. apply (retryOperation_from_exhausted operation retries 0 delay).
  intros j Hj. apply H. lia.
Qed.

Lemma retryOperation_exhausted_witness :
  retryOperation (fun _ : nat => @Throw string ThrownNull) 2 1000 =
  (Throw ThrownNull, backoffTrace 0 1000 2).
Proof.
  apply (retryOperation_exhausted (fun _ : nat => @Throw string ThrownNull) 2 1000).
  intros k _. exists ThrownNull. split; reflexivity.
Defined.

(** A response without any inline image part makes [callImageModel]
    throw ["No image data returned from API"] after a single attempt:
    that error is not retried. *)
Theorem callImageModel_no_image (api : ImageModel) (parts : option (list ResponsePart)) :
  api 0%nat = Ok parts ->
  Forall (fun p => inlineData p = None) (match parts with Some l => l | None => [] end) ->
  callImageModel api = (Throw noImageError, [Attempt 0]).
Proof.
  intros Ha Hn. unfold callImageModel, retryOperation. cbn [retryOperation_from].
  assert (E : imageOperation api 0 = Throw noImageError).
  { unfold imageOperation. rewrite Ha, find_all_none by exact Hn. reflexivity. }
  rewrite E. reflexivity.
Qed.

Lemma callImageModel_no_image_witness :
  callImageModel (fun _ => Ok (Some [mkPart None; mkPart None])) =
  (Throw noImageError, [Attempt 0]).
Proof.
  apply (callImageModel_no_image _ (Some [mkPart None; mkPart None])); [reflexivity|].
  repeat constructor.
Defined.

(** [callImageModel] returns the PNG data URL of the first response part
    that carries inline data; later parts are ignored. *)
Theorem callImageModel_first_inline (api : ImageModel) (pre post : list ResponsePart) (d : string) :
  api 0%nat = Ok (Some (pre ++ mkPart (Some d) :: post)%list) ->
  Forall (fun p => inlineData p = None) pre ->
  callImageModel api = (Ok ("data:image/png;base64," ++ d), [Attempt 0]).
Proof.
  intros Ha Hn. unfold callImageModel, retryOperation. cbn [retryOperation_from].
  assert (E : imageOperation api 0 = Ok ("data:image/png;base64," ++ d)).
  { unfold imageOperation. rewrite Ha, find_first_inline by exact Hn. reflexivity. }
  rewrite E. reflexivity.
Qed.

Lemma callImageModel_first_inline_witness :
  callImageModel (fun _ => Ok (Some [mkPart None; mkPart (Some "AAA"); mkPart (Some "BBB")])) =
  (Ok "data:image/png;base64,AAA", [Attempt 0]).
Proof.
  apply (callImageModel_first_inline _ [mkPart None] [mkPart (Some "BBB")] "AAA");
    [reflexivity|].
  repeat constructor.
Defined.

(** [stripBase64] of a data URL [p,d...] with a comma-free header [p]
    returns the non-empty segment [d] up to the next comma. *)
Theorem stripBase64_payload (p d rest : string) :
  ~ In ","%char (list_ascii_of_string p) ->
  ~ In ","%char (list_ascii_of_string d) ->
  d <> "" ->
  (rest = "" \/ exists r, rest = String "," r) ->
  stripBase64 (p ++ "," ++ d ++ rest) = d.
Proof.
  intros Hp Hd Hne Hr. unfold stripBase64, js_split.
  rewrite js_split_go_skip by exact Hp. cbn [js_split_go append].
  replace (Ascii.eqb "," ",") with true by reflexivity.
  rewrite js_split_go_skip by exact Hd. simpl append.
  destruct Hr as [->|(r & ->)]; cbn [js_split_go nth_error];
    [|replace (Ascii.eqb "," ",") with true by reflexivity; cbn [nth_error]];
    destruct (String.eqb_spec d "") as [E|E]; tauto || reflexivity.
Qed.

Lemma stripBase64_payload_witness :
  stripBase64 ("data:image/png;base64" ++ "," ++ "iVBORw0K" ++ "") = "iVBORw0K".
Proof.
  apply stripBase64_payload; [simpl; intuition discriminate|simpl; intuition discriminate
                             |discriminate|left; reflexivity].
Defined.

(** [stripBase64] leaves a string without a comma unchanged. *)
Theorem stripBase64_no_comma (s : string) :
  ~ In ","%char (list_ascii_of_string s) -> stripBase64 s = s.
Proof.
  intros Hs. unfold stripBase64, js_split.
  rewrite <- (string_app_nil_r s) at 1. rewrite js_split_go_skip by exact Hs.
  reflexivity.
Qed.

Lemma stripBase64_no_comma_witness :
  stripBase64 "iVBORw0KGgo" = "iVBORw0KGgo".
Proof. apply stripBase64_no_comma. simpl. intuition discriminate. Defined.

(** [stripBase64] of a header followed by a comma and an empty payload
    returns the whole string, header included. *)
Theorem stripBase64_empty_payload (p : string) :
  ~ In ","%char (list_ascii_of_string p) -> stripBase64 (p ++ ",") = p ++ ",".
Proof.
  intros Hp. unfold stripBase64, js_split.
  rewrite js_split_go_skip by exact Hp. reflexivity.
Qed.

Lemma stripBase64_empty_payload_witness :
  stripBase64 ("data:image/png;base64" ++ ",") = "data:image/png;base64" ++ ",".
Proof. apply stripBase64_empty_payload. simpl. intuition discriminate. Defined.

(** When the high-resolution generation succeeds, [handleDownloadHighRes]
    stores the new image with [isImageLoading = false] and the requested
    resolution, leaves [error] as it was and triggers one download named
    [luxefit-<id>-<resolution>.png]; every other asset is unchanged. *)
Theorem handleDownloadHighRes_success (s : AppState) (assetId : string) (r : ImageResolution)
    (gen : GenService) (batch : Batch.t) (asset : Asset.t) (url : string) :
  findBatchOf (history s) assetId = Some batch ->
  findAsset batch assetId = Some asset ->
  highResCall s batch asset r gen = Ok url ->
  AssetsTransformed (history s) (snd (fst (handleDownloadHighRes s assetId r gen)))
    (Batch.id batch) assetId
    (fun a a' => Asset.imageUrl a' = Some url /\ Asset.isImageLoading a' = false /\
                 Asset.resolution a' = r /\ Asset.error a' = Asset.error a) /\
  snd (handleDownloadHighRes s assetId r gen) =
    [mkDownload url ("luxefit-" ++ assetId ++ "-" ++ resolution_string r ++ ".png")].
Proof.
  intros Hb Ha Hr. unfold handleDownloadHighRes. rewrite Hb, Ha, Hr. cbn [fst snd].
  split; [|reflexivity].
  eapply AssetsTransformed_impl;
    [|eapply AssetsTransformed_compose;
       [|apply updateAssetInHistory_transforms|apply updateAssetInHistory_transforms]].
  - intros a a2 (a1 & -> & ->). repeat split.
  - intros a a' ->. reflexivity.
Qed.

Lemma handleDownloadHighRes_success_witness :
  let a := Asset.mk "1-0" (Some "old") "细节特写" false (Some "高清生成失败") AR_3_4 Res2K
             None None None None None in
  let b := Batch.mk "1" 1 TryOn [a] in
  let s := mkState TryOn [mkFile "p" "P"] [mkFile "r" "R"] (Some (mkFile "m" "M")) "项链" ""
             "" (mkDimensions "" "" "mm") AR_3_4 [b] false in
  AssetsTransformed (history s)
    (snd (fst (handleDownloadHighRes s "1-0" Res4K (fun _ _ => Ok "hd")))) (Batch.id b) "1-0"
    (fun a a' => Asset.imageUrl a' = Some "hd" /\ Asset.isImageLoading a' = false /\
                 Asset.resolution a' = Res4K /\ Asset.error a' = Asset.error a) /\
  snd (handleDownloadHighRes s "1-0" Res4K (fun _ _ => Ok "hd")) =
    [mkDownload "hd" ("luxefit-" ++ "1-0" ++ "-" ++ resolution_string Res4K ++ ".png")].
Proof.
  intros a b s. apply (handleDownloadHighRes_success s "1-0" Res4K (fun _ _ => Ok "hd") b a "hd");
    reflexivity.
Defined.

(** When the high-resolution generation fails, the asset keeps its
    image, stops loading, gets [error = "高清生成失败"] and resolution
    2K, and nothing is downloaded. *)
Theorem handleDownloadHighRes_failure (s : AppState) (assetId : string) (r : ImageResolution)
    (gen : GenService) (batch : Batch.t) (asset : Asset.t) (e : Thrown) :
  findBatchOf (history s) assetId = Some batch ->
  findAsset batch assetId = Some asset ->
  highResCall s batch asset r gen = Throw e ->
  AssetsTransformed (history s) (snd (fst (handleDownloadHighRes s assetId r gen)))
    (Batch.id batch) assetId
    (fun a a' => Asset.imageUrl a' = Asset.imageUrl a /\ Asset.isImageLoading a' = false /\
                 Asset.error a' = Some "高清生成失败" /\ Asset.resolution a' = Res2K) /\
  snd (handleDownloadHighRes s assetId r gen) = [].
Proof.
  intros Hb Ha Hr. unfold handleDownloadHighRes. rewrite Hb, Ha, Hr. cbn [fst snd].
  split; [|reflexivity].
  eapply AssetsTransformed_impl;
    [|eapply AssetsTransformed_compose;
       [|apply updateAssetInHistory_transforms|apply updateAssetInHistory_transforms]].
  - intros a a2 (a1 & -> & ->). repeat split.
  - intros a a' ->. reflexivity.
Qed.

Lemma handleDownloadHighRes_failure_witness :
  let a := Asset.mk "1-0" (Some "old") "细节特写" false None AR_3_4 Res2K
             None None None None None in
  let b := Batch.mk "1" 1 TryOn [a] in
  let s := mkState TryOn [mkFile "p" "P"] [] (Some (mkFile "m" "M")) "项链" ""
             "" (mkDimensions "" "" "mm") AR_3_4 [b] false in
  AssetsTransformed (history s)
    (snd (fst (handleDownloadHighRes s "1-0" Res4K (fun _ _ => Ok "hd")))) (Batch.id b) "1-0"
    (fun a a' => Asset.imageUrl a' = Asset.imageUrl a /\ Asset.isImageLoading a' = false /\
                 Asset.error a' = Some "高清生成失败" /\ Asset.resolution a' = Res2K) /\
  snd (handleDownloadHighRes s "1-0" Res4K (fun _ _ => Ok "hd")) = [].
Proof.
  intros a b s.
  apply (handleDownloadHighRes_failure s "1-0" Res4K (fun _ _ => Ok "hd") b a
           (ThrownObject None None (Some "缺少原图") "Error: 缺少原图" "{}")); reflexivity.
Defined.

(** In try-on mode without reference images or model image, the
    high-resolution request throws ["缺少原图"] whatever the service does,
    so the service is not called. *)
Theorem highResCall_missing_inputs (s : AppState) (batch : Batch.t) (asset : Asset.t)
    (r : ImageResolution) (gen : GenService) :
  Batch.mode batch = TryOn ->
  referenceImages s = [] \/ modelImage s = None ->
  highResCall s batch asset r gen =
  Throw (ThrownObject None None (Some "缺少原图") "Error: 缺少原图" "{}").
Proof.
  intros Hm Hi. unfold highResCall, highResRequest. rewrite Hm.
  destruct Hi as [-> | ->]; [reflexivity|].
  destruct (referenceImages s); reflexivity.
Qed.

Lemma highResCall_missing_inputs_witness :
  let a := Asset.mk "1-0" (Some "old") "细节特写" false None AR_3_4 Res2K
             None None None None None in
  let s := mkState TryOn [mkFile "p" "P"] [mkFile "r" "R"] None "项链" ""
             "" (mkDimensions "" "" "mm") AR_3_4 [] false in
  highResCall s (Batch.mk "1" 1 TryOn [a]) a Res4K (fun _ _ => Ok "hd") =
  Throw (ThrownObject None None (Some "缺少原图") "Error: 缺少原图" "{}").
Proof.
  intros a s. apply highResCall_missing_inputs; [reflexivity|right; reflexivity].
Defined.

(** After a successful 4K download, a second 4K download from the card
    downloads the stored image under the same file name instead of
    generating again. *)
Theorem highRes4K_then_direct_download (s : AppState) (assetId : string) (gen : GenService)
    (batch : Batch.t) (asset : Asset.t) (url : string) :
  findBatchOf (history s) assetId = Some batch ->
  findAsset batch assetId = Some asset ->
  highResCall s batch asset Res4K gen = Ok url ->
  exists b' a',
    findBatchOf (snd (fst (handleDownloadHighRes s assetId Res4K gen))) assetId = Some b' /\
    findAsset b' assetId = Some a' /\
    cardHandleDownload a' Res4K = DirectDownload (Some url) ("luxefit-" ++ assetId ++ "-4K.png") /\
    snd (handleDownloadHighRes s assetId Res4K gen) =
      [mkDownload url ("luxefit-" ++ assetId ++ "-4K.png")].
Proof.
  intros Hb Ha Hr. unfold handleDownloadHighRes. rewrite Hb, Ha, Hr. cbn [fst snd].
  destruct (findAsset_after_update (history s) assetId (upd_highres_start Res4K) batch asset
              eq_refl Hb Ha) as (b1 & Hb1 & Hid1 & Ha1).
  destruct (findAsset_after_update _ assetId (upd_generated url) b1 _ eq_refl Hb1 Ha1)
    as (b2 & Hb2 & _ & Ha2).
  rewrite Hid1 in Hb2.
  exists b2, (apply_update (upd_generated url) (apply_update (upd_highres_start Res4K) asset)).
  split; [exact Hb2|]. split; [exact Ha2|]. split; [|reflexivity].
  unfold cardHandleDownload. cbn. rewrite (findAsset_id _ _ _ Ha). reflexivity.
Qed.

Lemma highRes4K_then_direct_download_witness :
  let a := Asset.mk "1-0" (Some "old") "场景展示 1" false None AR_9_16 Res2K
             None None None None None in
  let b := Batch.mk "1" 1 Scene [a] in
  let s := mkState Scene [mkFile "p" "P"] [] None "戒指" "" "garden"
             (mkDimensions "" "" "mm") AR_9_16 [b] false in
  exists b' a',
    findBatchOf (snd (fst (handleDownloadHighRes s "1-0" Res4K (fun _ _ => Ok "hd")))) "1-0"
      = Some b' /\
    findAsset b' "1-0" = Some a' /\
    cardHandleDownload a' Res4K = DirectDownload (Some "hd") ("luxefit-" ++ "1-0" ++ "-4K.png") /\
    snd (handleDownloadHighRes s "1-0" Res4K (fun _ _ => Ok "hd")) =
      [mkDownload "hd" ("luxefit-" ++ "1-0" ++ "-4K.png")].
Proof.
  intros a b s.
  apply (highRes4K_then_direct_download s "1-0" (fun _ _ => Ok "hd") b a "hd"); reflexivity.
Defined.

(** After a failed high-resolution download, a 4K download from the card
    calls [onDownloadHighRes] again. *)
Theorem highRes_failure_then_retry (s : AppState) (assetId : string) (r : ImageResolution)
    (gen : GenService) (batch : Batch.t) (asset : Asset.t) (e : Thrown) :
  findBatchOf (history s) assetId = Some batch ->
  findAsset batch assetId = Some asset ->
  highResCall s batch asset r gen = Throw e ->
  exists b' a',
    findBatchOf (snd (fst (handleDownloadHighRes s assetId r gen))) assetId = Some b' /\
    findAsset b' assetId = Some a' /\
    cardHandleDownload a' Res4K = CallDownloadHighRes assetId Res4K.
Proof.
  intros Hb Ha Hr. unfold handleDownloadHighRes. rewrite Hb, Ha, Hr. cbn [fst snd].
  destruct (findAsset_after_update (history s) assetId (upd_highres_start r) batch asset
              eq_refl Hb Ha) as (b1 & Hb1 & Hid1 & Ha1).
  destruct (findAsset_after_update _ assetId upd_highres_failed b1 _ eq_refl Hb1 Ha1)
    as (b2 & Hb2 & _ & Ha2).
  rewrite Hid1 in Hb2.
  exists b2, (apply_update upd_highres_failed (apply_update (upd_highres_start r) asset)).
  split; [exact Hb2|]. split; [exact Ha2|].
  unfold cardHandleDownload. cbn. rewrite (findAsset_id _ _ _ Ha). reflexivity.
Qed.

Lemma highRes_failure_then_retry_witness :
  let a := Asset.mk "1-0" (Some "old") "场景展示 1" false None AR_9_16 Res2K
             None None None None None in
  let b := Batch.mk "1" 1 Scene [a] in
  let s := mkState Scene [mkFile "p" "P"] [] None "戒指" "" "garden"
             (mkDimensions "" "" "mm") AR_9_16 [b] false in
  exists b' a',
    findBatchOf (snd (fst (handleDownloadHighRes s "1-0" Res4K
                             (fun _ _ => Throw ThrownNull)))) "1-0" = Some b' /\
    findAsset b' "1-0" = Some a' /\
    cardHandleDownload a' Res4K = CallDownloadHighRes "1-0" Res4K.
Proof.
  intros a b s.
  apply (highRes_failure_then_retry s "1-0" Res4K (fun _ _ => Throw ThrownNull) b a ThrownNull);
    reflexivity.
Defined.

(** Whenever the card's verify button forwards the feedback, the asset
    is found and [handleVerifyIntent] takes the interpretation path: one
    call to [verifyFeedbackIntent], after which the asset stores the
    draft, the images, the region and an interpretation.  The clearing
    path is never reached from the button, even for blank text. *)
Theorem handleVerifyClick_interprets (h : History) (assetId text : string)
    (images : list string) (sel : option Region) (api : InterpretService)
    (batch : Batch.t) (args : string * list string * option Region) :
  handleVerifyClick text images sel = Some args ->
  findBatchOf h assetId = Some batch ->
  let '(feedback, files, region) := args in
  snd (handleVerifyIntent h assetId feedback files region api) = 1%nat /\
  AssetsTransformed h (fst (handleVerifyIntent h assetId feedback files region api))
    (Batch.id batch) assetId
    (fun a a' => Asset.feedbackDraft a' = Some text /\
                 Asset.isVerifyingFeedback a' = Some false /\
                 Asset.feedbackReferenceImages a' = Some images /\
                 Asset.feedbackRegion a' = sel /\
                 exists interp, Asset.feedbackInterpretation a' = Some interp).
Proof.
  intros Hc Hb. unfold handleVerifyClick in Hc.
  destruct (String.eqb (js_trim text) "" && match images with [] => true | _ => false end &&
            match sel with None => true | Some _ => false end) eqn:G; [discriminate|].
  injection Hc as <-.
  unfold handleVerifyIntent. rewrite Hb.
  assert (G' : (String.eqb text "" && match images with [] => true | _ => false end &&
                match sel with None => true | Some _ => false end) = false).
  { destruct (String.eqb_spec text "") as [->|]; [exact G|reflexivity]. }
  rewrite G'.
  set (op := match findAsset batch assetId with Some a => Asset.imagePrompt a | None => "" end).
  set (cu := match findAsset batch assetId with Some a => Asset.imageUrl a | None => None end).
  assert (Hv : exists interp, verifyFeedbackIntent op text cu images sel api = Ok interp).
  { unfold verifyFeedbackIntent.
    destruct (fst (retryOperation _ 2 1000)); eexists; reflexivity. }
  destruct Hv as (interp & Hv). rewrite Hv. cbn [fst snd]. split; [reflexivity|].
  eapply AssetsTransformed_impl;
    [|eapply AssetsTransformed_compose;
       [|apply updateAssetInHistory_transforms|apply updateAssetInHistory_transforms]].
  - intros a a2 (a1 & -> & ->). cbn. repeat split. eexists; reflexivity.
  - intros a a' ->. reflexivity.
Qed.

Lemma handleVerifyClick_interprets_witness :
  let a := Asset.mk "1-0" (Some "old") "细节特写" false None AR_3_4 Res2K
             None None None None None in
  let b := Batch.mk "1" 1 TryOn [a] in
  let api := fun (_ : nat) (_ : VerifyRequest) => @Ok (option string) (Some " 提高亮度 ") in
  snd (handleVerifyIntent [b] "1-0" "更亮一些" [] None api) = 1%nat /\
  AssetsTransformed [b] (fst (handleVerifyIntent [b] "1-0" "更亮一些" [] None api))
    (Batch.id b) "1-0"
    (fun a a' => Asset.feedbackDraft a' = Some "更亮一些" /\
                 Asset.isVerifyingFeedback a' = Some false /\
                 Asset.feedbackReferenceImages a' = Some [] /\
                 Asset.feedbackRegion a' = None /\
                 exists interp, Asset.feedbackInterpretation a' = Some interp).
Proof.
  intros a b api.
  exact (handleVerifyClick_interprets [b] "1-0" "更亮一些" [] None api b ("更亮一些", [], None)
           eq_refl eq_refl).
Defined.

(** [verifyFeedbackIntent] never resolves to the empty string. *)
Theorem verifyFeedbackIntent_nonempty (originalPrompt feedback : string)
    (currentImageBase64 : option string) (refs : list string) (region : option Region)
    (api : InterpretService) (v : string) :
  verifyFeedbackIntent originalPrompt feedback currentImageBase64 refs region api = Ok v ->
  v <> "".
Proof.
  unfold verifyFeedbackIntent.
  destruct (fst (retryOperation _ 2 1000)) as [w|e] eqn:E; intros H; injection H as <-;
    [|discriminate].
  apply retry_result_from_operation in E as (m & Hm).
  unfold verifyOperation in Hm.
  destruct (api m _) as [[t|]|e]; [|injection Hm as <-; discriminate|discriminate].
  injection Hm as <-. destruct (String.eqb_spec (js_trim t) "") as [_|Hne];
    [discriminate|exact Hne].
Qed.

Lemma verifyFeedbackIntent_nonempty_witness :
  let api := fun (_ : nat) (_ : VerifyRequest) => @Ok (option string) (Some " 提高亮度 ") in
  verifyFeedbackIntent "细节特写" "更亮一些" None [] None api = Ok "提高亮度" /\ "提高亮度" <> "".
Proof.
  intros api. split; [reflexivity|].
  apply (verifyFeedbackIntent_nonempty "细节特写" "更亮一些" None [] None api). reflexivity.
Defined.

(** Releasing the mouse keeps the selection, and pointer moves after it
    change nothing. *)
Theorem handleMouseUp_ends_drag (st : SelectorState) (container : option DOMRect)
    (clientX clientY : Q) :
  selection (handleMouseUp st) = selection st /\
  handleMouseMove container clientX clientY (handleMouseUp st) = handleMouseUp st.
Proof. split; reflexivity. Qed.

(** Toggling the selection mode twice restores the mode and always
    leaves no selection. *)
Theorem toggleSelectionMode_twice (st : SelectorState) :
  isSelecting (toggleSelectionMode (toggleSelectionMode st)) = isSelecting st /\
  selection (toggleSelectionMode (toggleSelectionMode st)) = None.
Proof. destruct st as [[] d p sel]; split; reflexivity. Qed.

(** Leaving selection mode during a drag does not end the drag: a
    following pointer move sets a selection again although selection
    mode is off. *)
Theorem toggle_off_keeps_drag (st : SelectorState) (rect : DOMRect) (clientX clientY : Q) :
  isSelecting st = true -> isDragging st = true ->
  let st' := handleMouseMove (Some rect) clientX clientY (toggleSelectionMode st) in
  isSelecting st' = false /\ selection st' <> None.
Proof.
  intros Hs Hd. destruct st as [s d p sel]; cbn in Hs, Hd; subst. cbn.
  split; [reflexivity|discriminate].
Qed.

Lemma toggle_off_keeps_drag_witness :
  let st := mkSelector true true (10%Q, 10%Q) (Some (mkRegion 10 10 5 5)) in
  let st' := handleMouseMove (Some (mkRect 0 0 200 100)) 50 50 (toggleSelectionMode st) in
  isSelecting st' = false /\ selection st' <> None.
Proof.
  intros st. apply toggle_off_keeps_drag; reflexivity.
Defined.

(** In multiple mode, clearing the file at index [i] passes the list
    without its [i]-th element to [onChange] (the list itself when [i] is
    out of range). *)
Theorem handleClear_splice (l : list UploadedFile) (i : nat) :
  handleClear true (VMany l) (Some i) = Some (VMany (firstn i l ++ skipn (S i) l)).
Proof.
  unfold handleClear. f_equal. f_equal. revert i.
  induction l as [|x l IH]; intros [|i]; simpl; try reflexivity.
  now rewrite IH.
Qed.

(** Removing a feedback image by index and clearing an uploaded file by
    index give the same list. *)
Theorem removeFeedbackImage_handleClear (l : list UploadedFile) (i : nat) :
  handleClear true (VMany l) (Some i) = Some (VMany (removeFeedbackImage i l)).
Proof.
  unfold handleClear, removeFeedbackImage. do 2 f_equal.
  symmetry. apply (filter_combine_splice l 0 i).
Qed.

(** The generate button is disabled exactly when a generation is
    running or [handleGenerate] would reject the inputs. *)
Theorem generateButtonDisabled_iff (s : AppState) :
  generateButtonDisabled s = isGenerating s || negb (generateInputsValid s).
Proof.
  unfold generateButtonDisabled, generateInputsValid.
  destruct (isGenerating s), (productImages s), (activeMode s), (referenceImages s),
    (modelImage s); reflexivity.
Qed.

(** When the inputs are valid and no earlier batch has the new batch id,
    [handleGenerate] ends with [isGenerating = false] and the new batch
    in front of the unchanged older history; its [i]-th asset belongs to
    the [i]-th task, no longer loads, and holds either the image returned
    by the [i]-th call or the error message built from its failure. *)
Theorem handleGenerate_final_state (s : AppState) (now : Z) (gen : GenService) :
  generateInputsValid s = true ->
  ~ In (Number_toString now) (map Batch.id (history s)) ->
  let s' := fst (handleGenerate s now gen) in
  let tasks := generationTasks (activeMode s) (Number_toString now) (scenePrompt s) in
  isGenerating s' = false /\
  exists assets,
    history s' = Batch.mk (Number_toString now) now (activeMode s) assets :: history s /\
    length assets = length tasks /\
    forall i t, nth_error tasks i = Some t ->
      exists a, nth_error assets i = Some a /\ Asset.id a = task_id t /\
        Asset.isImageLoading a = false /\
        match gen i (taskRequest s t) with
        | Ok url => Asset.imageUrl a = Some url /\ Asset.error a = None
        | Throw e => Asset.imageUrl a = None /\ Asset.error a = Some (generateErrorMsg e)
        end.
Proof.
  intros Hv Hn s' tasks. unfold s', handleGenerate, startGeneration. rewrite Hv.
  fold tasks.
  destruct (runTasks_assets s (Number_toString now) gen tasks 0 now (activeMode s)
              (map (placeholder (aspectRatio s)) tasks) (history s) Hn
              (generationTasks_NoDup _ _ _)) as (assets & Heq & HF).
  destruct (runTasks s (Number_toString now) gen 0 tasks _) as [h1 ev] eqn:Er.
  cbn [fst] in Heq |- *. split; [reflexivity|].
  exists assets. split; [exact Heq|]. split.
  - rewrite <- (Forall2_length HF). apply length_map.
  - intros i t Ht.
    assert (Hp : nth_error (map (placeholder (aspectRatio s)) tasks) i =
                 Some (placeholder (aspectRatio s) t)) by (rewrite nth_error_map, Ht; reflexivity).
    destruct (Forall2_nth_error _ _ _ i _ HF Hp) as (a & Ha & H1 & _).
    exists a. split; [exact Ha|].
    rewrite (H1 i t Ht eq_refl). cbn [Nat.add].
    destruct (gen i (taskRequest s t)); repeat split.
Qed.

Lemma handleGenerate_final_state_witness :
  let s := mkState Scene [mkFile "p" "P"] [] None "戒指" "" "garden" (mkDimensions "" "" "mm")
             AR_1_1 [] false in
  let gen := fun (n : nat) (_ : GenRequest) =>
               if Nat.eqb n 1 then Throw ThrownNull else Ok "img" in
  let s' := fst (handleGenerate s 7 gen) in
  let tasks := generationTasks (activeMode s) (Number_toString 7) (scenePrompt s) in
  isGenerating s' = false /\
  exists assets,
    history s' = Batch.mk (Number_toString 7) 7 (activeMode s) assets :: history s /\
    length assets = length tasks /\
    forall i t, nth_error tasks i = Some t ->
      exists a, nth_error assets i = Some a /\ Asset.id a = task_id t /\
        Asset.isImageLoading a = false /\
        match gen i (taskRequest s t) with
        | Ok url => Asset.imageUrl a = Some url /\ Asset.error a = None
        | Throw e => Asset.imageUrl a = None /\ Asset.error a = Some (generateErrorMsg e)
        end.
Proof.
  intros s gen. apply handleGenerate_final_state; [reflexivity|simpl; tauto].
Defined.
